(** * Route 53 VPC association authorization and ECS capacity provider

    A shallow embedding of the two Terraform resource handlers of
    [aws/resource_aws_route53_vpc_association_authorization.go] (the
    second half of that file holds the ECS capacity provider resource),
    followed by the properties of their identifier codec, lookup-by-scan,
    lifecycle handlers and flatten/expand mappers.

    Conventions.  Go strings are byte sequences: they are [string] here
    (a list of 8-bit [ascii]).  A Go pointer [*T] that may be nil is an
    [option T]; [aws.String(s)] and [&T{...}] are [Some].  A run-time
    panic (nil dereference, failed type assertion, index out of range)
    is the outcome [Panic].  [log.Printf] calls do not influence any
    result and are left out. *)

From Stdlib Require Import Ascii String ZArith.
From stdpp Require Import base option list strings gmap.

Local Open Scope string_scope.
Local Set Warnings "-register-all".

(** ** Outcomes *)

Inductive outcome (A : Type) : Type :=
  | Done (a : A)
  | Panic.
Arguments Done {A} a.
Arguments Panic {A}.

#[global] Instance outcome_ret : MRet outcome := fun A a => Done a.
#[global] Instance outcome_bind : MBind outcome :=
  fun A B f m => match m with Done a => f a | Panic => Panic end.

(** ** The part of the AWS SDK the handlers use *)

Module aws.
(** [aws.StringValue]: the pointed-to string, or the empty string. *)
Definition StringValue (p : option string) : string :=
  match p with Some s => s | None => EmptyString end.

(** [aws.Int64Value]: the pointed-to integer, or zero. *)
Definition Int64Value (p : option Z) : Z :=
  match p with Some n => n | None => 0%Z end.
End aws.

Module route53.
Record VPC : Type := mkVPC {
  VPCId : option string;
  VPCRegion : option string }.

Record CreateVPCAssociationAuthorizationInput : Type := mkCreateInput {
  CreateHostedZoneId : option string;
  CreateVPC : option VPC }.

Record DeleteVPCAssociationAuthorizationInput : Type := mkDeleteInput {
  DeleteHostedZoneId : option string;
  DeleteVPC : option VPC }.

Record ListVPCAssociationAuthorizationsInput : Type := mkListInput {
  ListHostedZoneId : option string;
  MaxResults : option string;
  NextToken : option string }.

Definition ErrCodeNoSuchHostedZone : string := "NoSuchHostedZone".
End route53.

Module ecs.
Record ManagedScaling : Type := mkManagedScaling {
  MaximumScalingStepSize : option Z;
  MinimumScalingStepSize : option Z;
  Status : option string;
  TargetCapacity : option Z }.

Record AutoScalingGroupProvider : Type := mkAutoScalingGroupProvider {
  AutoScalingGroupArn : option string;
  ManagedScaling_ : option ManagedScaling;
  ManagedTerminationProtection : option string }.
End ecs.

Module arn.
Record ARN : Type := mkARN {
  Partition : string;
  Service : string;
  Region : string;
  AccountID : string;
  Resource : string }.
End arn.

(** ** Errors *)

(** An argument handed to [fmt.Errorf]: a string (for [%s] and [%q]),
    an error value (for [%s]), or the [GoString()] of a list request.
    The call is kept unrendered, so two errors built by [fmt.Errorf] are
    equal exactly when they have the same format and arguments. *)
Inductive error : Type :=
  | AwsError (code message : string)
  | SdkError (message : string)
  | Errorf (format : string) (args : list fmtarg)
with fmtarg : Type :=
  | ArgString (s : string)
  | ArgError (e : error)
  | ArgGoString (input : route53.ListVPCAssociationAuthorizationsInput).

(** ** The strings and fmt packages *)

Definition colon : ascii := ":"%char.

(** [strings.Count(s, sep)] for a one-byte separator. *)
Fixpoint Count (s : string) (sep : ascii) : nat :=
  match s with
  | EmptyString => 0
  | String c s' =>
      if Ascii.eqb c sep then S (Count s' sep) else Count s' sep
  end.

(** [strings.Split(s, sep)] for a one-byte separator: the substrings
    between the occurrences of [sep], [Count s sep + 1] of them. *)
Fixpoint Split (s : string) (sep : ascii) : list string :=
  match s with
  | EmptyString => [EmptyString]
  | String c s' =>
      if Ascii.eqb c sep then EmptyString :: Split s' sep
      else match Split s' sep with
           | p :: ps => String c p :: ps
           | [] => [String c EmptyString]
           end
  end.

(** [strings.Join(elems, sep)] for a one-byte separator; it serves only
    to state that [Split] loses nothing. *)
Fixpoint Join (elems : list string) (sep : ascii) : string :=
  match elems with
  | [] => EmptyString
  | [p] => p
  | p :: ps => p ++ String sep (Join ps sep)
  end.

(** [strings.Contains(s, substr)]. *)
Definition Contains (s substr : string) : bool :=
  match String.index 0 substr s with Some _ => true | None => false end.

Definition isEmpty (s : string) : bool :=
  match s with EmptyString => true | _ => false end.

(** ** Composite identifier codec *)

(** [fmt.Sprintf("%s:%s", zoneID, vpcID)], the identifier stored by the
    Create handler. *)
Definition encodeId (zoneID vpcID : string) : string :=
  zoneID ++ String colon vpcID.

Definition formatError (id : string) : error :=
  Errorf "Unexpected format of ID (%q), expected ZONEID:VPCID" [ArgString id].

(** The three results of the Go function, in order. *)
Definition resourceAwsRoute53VPCAssociationAuthorizationParseId
    (id : string) : string * string * option error :=
  let parts := Split id colon in
  match parts with
  | [p0; p1] =>
      if isEmpty p0 || isEmpty p1
      then (EmptyString, EmptyString, Some (formatError id))
      else (p0, p1, None)
  | _ => (EmptyString, EmptyString, Some (formatError id))
  end.

(** An identifier is well formed when it is two non-empty colon-free
    parts around one colon. *)
Definition wellFormed (id : string) : Prop :=
  exists a b, a <> EmptyString /\ b <> EmptyString /\
    Count a colon = 0 /\ Count b colon = 0 /\ id = encodeId a b.

(** ** Resource data, client and the handler monad *)

(** [schema.ResourceData] as the handlers below see it: the identifier
    and the attributes.  Every attribute these handlers read or write
    ([zone_id], [vpc_id], [vpc_region], [name]) is a [TypeString] in its
    schema, so [d.Get(k)] holds a string, the zero value when unset, and
    the assertion [.(string)] cannot fail. *)
Record ResourceData : Type := mkResourceData {
  Id : string;
  attrs : gmap string string }.

(** A remote call issued through the Route 53 client. *)
Inductive Call : Type :=
  | CallCreateVPCAssociationAuthorization
      (input : route53.CreateVPCAssociationAuthorizationInput)
  | CallListVPCAssociationAuthorizations
      (input : route53.ListVPCAssociationAuthorizationsInput)
  | CallDeleteVPCAssociationAuthorization
      (input : route53.DeleteVPCAssociationAuthorizationInput).

(** The Route 53 side as one handler invocation meets it: what each
    operation answers ([None] or [inr] is success), and the SDK's
    [Validate] method of the list request. *)
Record Route53 : Type := mkRoute53 {
  CreateVPCAssociationAuthorization :
    route53.CreateVPCAssociationAuthorizationInput -> option error;
  ListVPCAssociationAuthorizations :
    route53.ListVPCAssociationAuthorizationsInput ->
    error + list route53.VPC;
  DeleteVPCAssociationAuthorization :
    route53.DeleteVPCAssociationAuthorizationInput -> option error;
  Validate : route53.ListVPCAssociationAuthorizationsInput -> option error }.

(** [AWSClient], the [meta] argument of every handler. *)
Record AWSClient : Type := mkAWSClient {
  r53conn : Route53;
  region : string;
  partition : string;
  accountid : string }.

(** What a handler threads: the resource data it mutates through its
    pointer, and the remote calls issued so far, oldest first. *)
Record HState : Type := mkHState {
  data : ResourceData;
  trace : list Call }.

Definition M (A : Type) : Type := HState -> outcome (A * HState).

#[global] Instance M_ret : MRet M := fun A a st => Done (a, st).
#[global] Instance M_bind : MBind M :=
  fun A B f m st =>
    match m st with
    | Done (a, st') => f a st'
    | Panic => Panic
    end.

Definition panic {A : Type} : M A := fun _ => Panic.

(** [d.Id()] *)
Definition getId : M string := fun st => Done (Id (data st), st).

(** [d.SetId(id)] *)
Definition SetId (id : string) : M unit :=
  fun st => Done (tt, mkHState (mkResourceData id (attrs (data st))) (trace st)).

(** The string an attribute holds, the zero value when it is unset. *)
Definition attr (d : ResourceData) (key : string) : string :=
  default EmptyString (attrs d !! key).

(** [d.Get(key).(string)] *)
Definition Get (key : string) : M string :=
  fun st => Done (attr (data st) key, st).

(** [d.Set(key, value)] with a string, and with a [*string]; setting a
    nil pointer leaves the attribute unset. *)
Definition Set_ (key value : string) : M unit :=
  fun st =>
    Done (tt, mkHState (mkResourceData (Id (data st))
                          (<[key := value]> (attrs (data st)))) (trace st)).

Definition SetPtr (key : string) (value : option string) : M unit :=
  match value with
  | Some s => Set_ key s
  | None =>
      fun st =>
        Done (tt, mkHState (mkResourceData (Id (data st))
                              (delete key (attrs (data st)))) (trace st))
  end.

(** The current value of [*d]. *)
Definition getData : M ResourceData := fun st => Done (data st, st).

(** Issue a remote call: it is appended to the trace and answered. *)
Definition call {A : Type} (c : Call) (answer : A) : M A :=
  fun st => Done (answer, mkHState (data st) (trace st ++ [c])).

(** Modelled from the spec: [isAWSErr], a helper of the provider package
    that lives outside this file.  It recognises an [awserr.Error] with
    the given code whose message contains the given text; the read
    handler uses it to tell "zone does not exist" from other failures. *)
Definition isAWSErr (err : option error) (code message : string) : bool :=
  match err with
  | Some (AwsError c m) => String.eqb c code && Contains m message
  | _ => false
  end.

(** ** Route 53 VPC association authorization *)

(** The loop of [route53GetVPCAssociation]: the first entry whose
    [VPCId], read through [aws.StringValue], equals [vpcID]; nil when
    the loop runs to its end.  The SDK's decoder allocates every member
    of [output.VPCs], so the members are records, not nilable pointers. *)
Fixpoint scanVPCs (vpcID : string) (VPCs : list route53.VPC)
    : option route53.VPC :=
  match VPCs with
  | [] => None
  | zoneVPC :: rest =>
      if String.eqb vpcID (aws.StringValue (route53.VPCId zoneVPC))
      then Some zoneVPC
      else scanVPCs vpcID rest
  end.

(** The list request: the zone only; [MaxResults] and [NextToken] are
    left unset. *)
Definition listInput (zoneID : string)
    : route53.ListVPCAssociationAuthorizationsInput :=
  route53.mkListInput (Some zoneID) None None.

Definition route53GetVPCAssociation (conn : Route53) (zoneID vpcID : string)
    : M (option route53.VPC * option error) :=
  let input := listInput zoneID in
  match Validate conn input with
  | Some err =>
      mret (None,
            Some (Errorf "Bad input %s for List VPC Association Authorizations: %s"
                    [ArgGoString input; ArgError err]))
  | None =>
      output ← call (CallListVPCAssociationAuthorizations input)
                    (ListVPCAssociationAuthorizations conn input);
      match output with
      | inl err => mret (None, Some err)
      | inr VPCs => mret (scanVPCs vpcID VPCs, None)
      end
  end.

Definition resourceAwsRoute53CreateVPCAssociationAuthorizationRead
    (meta : AWSClient) : M (option error) :=
  let conn := r53conn meta in
  id ← getId;
  let '(zoneID, vpcID, err) :=
    resourceAwsRoute53VPCAssociationAuthorizationParseId id in
  match err with
  | Some e => mret (Some e)
  | None =>
      '(vpc, err) ← route53GetVPCAssociation conn zoneID vpcID;
      if isAWSErr err route53.ErrCodeNoSuchHostedZone ""
      then SetId "";; mret None
      else
        match err with
        | Some e =>
            mret (Some (Errorf "error getting Route 53 VPC (%s) Association Authorization for Hosted Zone (%s): %s"
                          [ArgString vpcID; ArgString zoneID; ArgError e]))
        | None =>
            match vpc with
            | None => SetId "";; mret None
            | Some vpc =>
                SetPtr "vpc_id" (route53.VPCId vpc);;
                SetPtr "vpc_region" (route53.VPCRegion vpc);;
                Set_ "zone_id" zoneID;;
                mret None
            end
        end
  end.

(** The request the Create handler builds: the client's region first,
    overridden by a non-empty [vpc_region]. *)
Definition createInput (zone_id vpc_id vpc_region clientRegion : string)
    : route53.CreateVPCAssociationAuthorizationInput :=
  let input :=
    route53.mkCreateInput (Some zone_id)
      (Some (route53.mkVPC (Some vpc_id) (Some clientRegion))) in
  if isEmpty vpc_region then input
  else
    route53.mkCreateInput (route53.CreateHostedZoneId input)
      (option_map (fun v => route53.mkVPC (route53.VPCId v) (Some vpc_region))
                  (route53.CreateVPC input)).

Definition resourceAwsRoute53CreateVPCAssociationAuthorizationCreate
    (meta : AWSClient) : M (option error) :=
  let conn := r53conn meta in
  zone_id ← Get "zone_id";
  vpc_id ← Get "vpc_id";
  w ← Get "vpc_region";
  let input := createInput zone_id vpc_id w (region meta) in
  err ← call (CallCreateVPCAssociationAuthorization input)
             (CreateVPCAssociationAuthorization conn input);
  match err with
  | Some e =>
      mret (Some (Errorf "Error creating VPC Association Authorization: %s"
                    [ArgError e]))
  | None =>
      match route53.CreateHostedZoneId input,
            route53.CreateVPC input ≫= route53.VPCId with
      | Some z, Some v =>
          SetId (encodeId z v);;
          resourceAwsRoute53CreateVPCAssociationAuthorizationRead meta
      | _, _ => panic
      end
  end.

Definition resourceAwsRoute53CreateVPCAssociationAuthorizationDelete
    (meta : AWSClient) : M (option error) :=
  let conn := r53conn meta in
  id ← getId;
  let '(zoneID, vpcID, err) :=
    resourceAwsRoute53VPCAssociationAuthorizationParseId id in
  match err with
  | Some e => mret (Some e)
  | None =>
      vpc_region ← Get "vpc_region";
      let input :=
        route53.mkDeleteInput (Some zoneID)
          (Some (route53.mkVPC (Some vpcID) (Some vpc_region))) in
      err ← call (CallDeleteVPCAssociationAuthorization input)
                 (DeleteVPCAssociationAuthorization conn input);
      mret None
  end.

(** ** ECS capacity provider *)

(** Modelled from the spec: [schema.Noop], the plugin SDK's handler that
    is installed as [Delete] of the capacity provider; its body is not
    in this file.  It issues no call, changes nothing and returns nil. *)
Definition Noop (meta : AWSClient) : M (option error) := mret None.

(** The [Delete] field of [resourceAwsEcsCapacityProvider()]. *)
Definition resourceAwsEcsCapacityProviderDelete
    : AWSClient -> M (option error) := Noop.

(** Modelled from the spec: the engine's destroy step around a [Delete]
    handler, which is not in this file.  It runs the handler on a
    tracked object and, when the handler reports no error, drops the
    object from tracked state by clearing its identifier. *)
Definition destroy (Delete : AWSClient -> M (option error))
    (meta : AWSClient) : M (option error) :=
  err ← Delete meta;
  match err with
  | Some e => mret (Some e)
  | None => SetId "";; mret None
  end.

(** Modelled from the spec: [arn.ARN.String] of the AWS SDK, whose body
    is not in this file: the colon-separated ARN, of the form
    [arn:partition:service:region:account-id:resource]. *)
Definition ARN_String (a : arn.ARN) : string :=
  "arn:" ++ arn.Partition a ++ ":" ++ arn.Service a ++ ":" ++
  arn.Region a ++ ":" ++ arn.AccountID a ++ ":" ++ arn.Resource a.

Definition resourceAwsEcsCapacityProviderImport (meta : AWSClient)
    : M (list ResourceData * option error) :=
  name ← getId;
  Set_ "name" name;;
  id ← getId;
  SetId (ARN_String
           (arn.mkARN (partition meta) "ecs" (region meta) (accountid meta)
                      ("capacity-provider/" ++ id)));;
  d ← getData;
  mret ([d], None).

(** ** Nested-structure flatten and expand *)

(** A Go [interface{}] of the generic attribute tree, by dynamic type:
    the nil interface, [string], [int], [int64], [[]interface{}],
    [map[string]interface{}] and [[]map[string]interface{}].  Go's [int]
    and [int64] hold the same values on the platforms the provider is
    built for, so the conversion [int64(val)] keeps the number. *)
Inductive Value : Type :=
  | VNil
  | VString (s : string)
  | VInt (n : Z)
  | VInt64 (n : Z)
  | VList (l : list Value)
  | VMap (m : gmap string Value)
  | VMapList (l : list (gmap string Value)).

(** [m[key]]: the nil interface when the key is absent. *)
Definition index (m : gmap string Value) (key : string) : Value :=
  default VNil (m !! key).

(** [v.(string)], [v.([]interface{})], [v.(map[string]interface{})]:
    the one-result assertions, which panic on another dynamic type. *)
Definition assertString (v : Value) : outcome string :=
  match v with VString s => Done s | _ => Panic end.

Definition assertList (v : Value) : outcome (list Value) :=
  match v with VList l => Done l | _ => Panic end.

Definition assertMap (v : Value) : outcome (gmap string Value) :=
  match v with VMap m => Done m | _ => Panic end.

(** [l[0]] *)
Definition first (l : list Value) : outcome Value :=
  match l with v :: _ => Done v | [] => Panic end.

(** The body of [if ms, ok := val[0].(map[string]interface{}); ok]:
    each leaf is copied when it has the expected dynamic type and is not
    the zero value. *)
Definition expandManagedScaling (ms : gmap string Value) : ecs.ManagedScaling :=
  let managedScaling := ecs.mkManagedScaling None None None None in
  let managedScaling :=
    match index ms "maximum_scaling_step_size" with
    | VInt val =>
        if negb (val =? 0)%Z
        then ecs.mkManagedScaling (Some val)
               (ecs.MinimumScalingStepSize managedScaling)
               (ecs.Status managedScaling) (ecs.TargetCapacity managedScaling)
        else managedScaling
    | _ => managedScaling
    end in
  let managedScaling :=
    match index ms "minimum_scaling_step_size" with
    | VInt val =>
        if negb (val =? 0)%Z
        then ecs.mkManagedScaling (ecs.MaximumScalingStepSize managedScaling)
               (Some val)
               (ecs.Status managedScaling) (ecs.TargetCapacity managedScaling)
        else managedScaling
    | _ => managedScaling
    end in
  let managedScaling :=
    match index ms "status" with
    | VString val =>
        if (0 <? String.length val)%nat
        then ecs.mkManagedScaling (ecs.MaximumScalingStepSize managedScaling)
               (ecs.MinimumScalingStepSize managedScaling)
               (Some val) (ecs.TargetCapacity managedScaling)
        else managedScaling
    | _ => managedScaling
    end in
  let managedScaling :=
    match index ms "target_capacity" with
    | VInt val =>
        if negb (val =? 0)%Z
        then ecs.mkManagedScaling (ecs.MaximumScalingStepSize managedScaling)
               (ecs.MinimumScalingStepSize managedScaling)
               (ecs.Status managedScaling) (Some val)
        else managedScaling
    | _ => managedScaling
    end in
  managedScaling.

(** The returned pointer is [&prov], never nil. *)
Definition expandAutoScalingGroupProvider (configured : Value)
    : outcome (option ecs.AutoScalingGroupProvider) :=
  l ← assertList configured;
  p0 ← first l;
  p ← assertMap p0;
  arn ← assertString (index p "auto_scaling_group_arn");
  mtp ← assertString (index p "managed_termination_protection");
  let ManagedTerminationProtection :=
    if (0 <? String.length mtp)%nat then Some mtp else None in
  val ← assertList (index p "managed_scaling");
  let ManagedScaling :=
    match val with
    | VMap ms :: _ => Some (expandManagedScaling ms)
    | _ => None
    end in
  mret (Some (ecs.mkAutoScalingGroupProvider
                (Some arn) ManagedScaling ManagedTerminationProtection)).

(** The result slice is nil for a nil provider and holds one map
    otherwise.  [provider.ManagedScaling] is dereferenced without a nil
    check. *)
Definition flattenAutoScalingGroupProvider
    (provider : option ecs.AutoScalingGroupProvider)
    : outcome (list (gmap string Value)) :=
  match provider with
  | None => Done []
  | Some provider =>
      let p : gmap string Value := ∅ in
      let p := <["auto_scaling_group_arn" :=
                   VString (aws.StringValue (ecs.AutoScalingGroupArn provider))]> p in
      let p := <["managed_termination_protection" :=
                   VString (aws.StringValue (ecs.ManagedTerminationProtection provider))]> p in
      match ecs.ManagedScaling_ provider with
      | None => Panic
      | Some managedScaling =>
          let ms : gmap string Value := ∅ in
          let ms := <["maximum_scaling_step_size" :=
                        VInt64 (aws.Int64Value (ecs.MaximumScalingStepSize managedScaling))]> ms in
          let ms := <["minimum_scaling_step_size" :=
                        VInt64 (aws.Int64Value (ecs.MinimumScalingStepSize managedScaling))]> ms in
          let ms := <["status" :=
                        VString (aws.StringValue (ecs.Status managedScaling))]> ms in
          let ms := <["target_capacity" :=
                        VInt64 (aws.Int64Value (ecs.TargetCapacity managedScaling))]> ms in
          let msl := ([] ++ [ms])%list in
          let p := <["managed_scaling" := VMapList msl]> p in
          Done ([] ++ [p])%list
      end
  end.

(** ** Notions used to state the properties *)

(** An entry matches the target when its [VPCId], read through
    [aws.StringValue], is the target. *)
Definition vpcIdIs (vpcID : string) (v : route53.VPC) : Prop :=
  aws.StringValue (route53.VPCId v) = vpcID.

(** The state after the list call for [zoneID] has been issued. *)
Definition afterList (zoneID : string) (st : HState) : HState :=
  mkHState (data st)
    (trace st ++ [CallListVPCAssociationAuthorizations (listInput zoneID)]).

(** The remote reports the authorization of [vpcID] for [zoneID] as
    absent: the list request is valid and the list call either fails
    with "no such hosted zone" or returns a page without a match. *)
Definition remoteAbsent (conn : Route53) (zoneID vpcID : string) : Prop :=
  Validate conn (listInput zoneID) = None /\
  ((exists message,
      ListVPCAssociationAuthorizations conn (listInput zoneID)
      = inl (AwsError route53.ErrCodeNoSuchHostedZone message)) \/
   (exists VPCs,
      ListVPCAssociationAuthorizations conn (listInput zoneID) = inr VPCs /\
      Forall (fun u => ~ vpcIdIs vpcID u) VPCs)).

(** The resource data once dropped from state: the identifier is empty. *)
Definition cleared (d : ResourceData) : ResourceData :=
  mkResourceData EmptyString (attrs d).

(** The region the specification gives an authorize call. *)
Definition effectiveRegion (vpc_region clientRegion : string) : string :=
  if decide (vpc_region = EmptyString) then clientRegion else vpc_region.

(** A leaf of the configuration tree that was left unset: absent from
    its block, or holding the zero value of its type. *)
Definition unsetInt (v : Value) : Prop := v = VNil \/ v = VInt 0.
Definition unsetString (v : Value) : Prop := v = VNil \/ v = VString "".

(** ** Sample inputs *)

Definition v1 : route53.VPC := route53.mkVPC (Some "v1") (Some "us-east-1").
Definition v2 : route53.VPC := route53.mkVPC (Some "v2") (Some "us-west-2").

(** A client whose zone lists [v1] and [v2], and whose calls succeed. *)
Definition listingConn : Route53 :=
  mkRoute53 (fun _ => None) (fun _ => inr [v1; v2]) (fun _ => None)
            (fun _ => None).

(** A client whose zone has no authorization at all. *)
Definition emptyConn : Route53 :=
  mkRoute53 (fun _ => None) (fun _ => inr []) (fun _ => None) (fun _ => None).

(** A client whose delete call is refused. *)
Definition refusingConn : Route53 :=
  mkRoute53 (fun _ => None) (fun _ => inr [])
            (fun _ => Some (AwsError "AccessDenied" "not authorized"))
            (fun _ => None).

Definition clientOf (conn : Route53) : AWSClient :=
  mkAWSClient conn "us-east-1" "aws" "123456789012".

(** State tracking the authorization of V1 for Z1, no call issued yet. *)
Definition trackedZ1V1 : HState :=
  mkHState (mkResourceData "Z1:V1"
              (<["zone_id" := "Z1"]> (<["vpc_id" := "V1"]> ∅))) [].

(** Scenario A: the configuration [{zone_id: Z1, vpc_id: V1}], before
    creation. *)
Definition scenarioA : HState :=
  mkHState (mkResourceData EmptyString
              (<["zone_id" := "Z1"]> (<["vpc_id" := "V1"]> ∅))) [].

(** A configuration whose [managed_scaling] block sets only the status,
    and one whose block list is empty. *)
Definition statusOnly : Value :=
  VList [VMap (<["auto_scaling_group_arn" := VString "arn:aws:autoscaling:asg/x"]>
              (<["managed_termination_protection" := VString ""]>
              (<["managed_scaling" :=
                   VList [VMap (<["status" := VString "ENABLED"]>
                               (<["target_capacity" := VInt 0]> ∅))]]> ∅)))].

Definition noManagedScaling : Value :=
  VList [VMap (<["auto_scaling_group_arn" := VString "arn:aws:autoscaling:asg/x"]>
              (<["managed_termination_protection" := VString ""]>
              (<["managed_scaling" := VList []]> ∅)))].

(** A response in which the remote filled in [target_capacity = 100]. *)
Definition defaulted : ecs.AutoScalingGroupProvider :=
  ecs.mkAutoScalingGroupProvider (Some "arn:aws:autoscaling:asg/x")
    (Some (ecs.mkManagedScaling (Some 10000%Z) (Some 1%Z) (Some "ENABLED")
                                (Some 100%Z)))
    (Some "DISABLED").

(** A tracked capacity provider, and the state an import of the short
    name [cp1] starts from. *)
Definition trackedCp1 : HState :=
  mkHState (mkResourceData "arn:aws:ecs:us-east-1:123456789012:capacity-provider/cp1"
              (<["name" := "cp1"]> ∅)) [].

Definition importingCp1 : HState :=
  mkHState (mkResourceData "cp1" ∅) [].

(** ** Proof automation *)

(** Case analysis on the four leaves of a [managed_scaling] block and
    on the tests made of them. *)
Ltac expand_leaves ms :=
  unfold expandManagedScaling;
  destruct (index ms "maximum_scaling_step_size");
  destruct (index ms "minimum_scaling_step_size");
  destruct (index ms "status");
  destruct (index ms "target_capacity");
  repeat match goal with
         | |- context [(?a =? ?b)%Z] => destruct (a =? b)%Z
         | |- context [(?a <? ?b)%nat] => destruct (a <? b)%nat
         end;
  reflexivity.

(** ** Further sample inputs *)

(** A client whose list call fails in transport. *)
Definition timeoutConn : Route53 :=
  mkRoute53 (fun _ => None) (fun _ => inl (SdkError "timeout"))
            (fun _ => None) (fun _ => None).

(** A client whose zone lists the authorization of V1 only. *)
Definition vpcV1 : route53.VPC := route53.mkVPC (Some "V1") (Some "eu-west-1").

Definition authorizedConn : Route53 :=
  mkRoute53 (fun _ => None) (fun _ => inr [vpcV1]) (fun _ => None)
            (fun _ => None).

(** Tracked state whose identifier was emptied, and one whose identifier
    has a colon too many. *)
Definition clearedZ1V1 : HState :=
  mkHState (cleared (data trackedZ1V1)) [].

Definition trackedBadId : HState :=
  mkHState (mkResourceData "Z1:V1:x" ∅) [].

(** The configuration [{zone_id: Z1, vpc_id: vpc:1}], before creation. *)
Definition scenarioColon : HState :=
  mkHState (mkResourceData EmptyString
              (<["zone_id" := "Z1"]> (<["vpc_id" := "vpc:1"]> ∅))) [].

(** One case of a frame property: the handler's run is computed and the
    three facts about identifier, trace and data are read off it. *)
Ltac frame_case :=
  eexists _, _; split; [reflexivity|]; simpl;
  split; [by (left + right)|];
  split; [(by left) || (right; by eexists)|done].

(** The number or string a leaf of the configuration tree holds, the
    zero value when the leaf is absent or of another dynamic type. *)
Definition leafInt (v : Value) : Z :=
  match v with VInt n => n | _ => 0%Z end.

Definition leafString (v : Value) : string :=
  match v with VString s => s | _ => EmptyString end.

(** The tree flatten builds for a provider with the given leaves. *)
Definition flatTree (arn mtp : string) (max min : Z) (status : string)
    (target : Z) : gmap string Value :=
  <["managed_scaling" :=
      VMapList [<["target_capacity" := VInt64 target]>
                (<["status" := VString status]>
                (<["minimum_scaling_step_size" := VInt64 min]>
                (<["maximum_scaling_step_size" := VInt64 max]> ∅)))]]>
  (<["managed_termination_protection" := VString mtp]>
  (<["auto_scaling_group_arn" := VString arn]> ∅)).

(** The block of a configuration with every leaf set. *)
Definition fullBlock : gmap string Value :=
  <["auto_scaling_group_arn" := VString "arn:aws:autoscaling:asg/x"]>
  (<["managed_termination_protection" := VString "ENABLED"]>
  (<["managed_scaling" :=
       VList [VMap (<["maximum_scaling_step_size" := VInt 100]>
                   (<["minimum_scaling_step_size" := VInt 1]>
                   (<["status" := VString "ENABLED"]>
                   (<["target_capacity" := VInt 75]> ∅))))]]> ∅)).

Definition fullScaling : gmap string Value :=
  <["maximum_scaling_step_size" := VInt 100]>
  (<["minimum_scaling_step_size" := VInt 1]>
  (<["status" := VString "ENABLED"]>
  (<["target_capacity" := VInt 75]> ∅))).

(** The block of [noManagedScaling]. *)
Definition bareBlock : gmap string Value :=
  <["auto_scaling_group_arn" := VString "arn:aws:autoscaling:asg/x"]>
  (<["managed_termination_protection" := VString ""]>
  (<["managed_scaling" := VList []]> ∅)).

(** ** ECS capacity provider: the create and read handlers *)

(** Further structures of the [ecs] package, with the fields the
    handlers touch. *)
Module ecsapi.
Record Tag : Type := mkTag {
  Key : option string;
  Value_ : option string }.

Record CapacityProvider : Type := mkCapacityProvider {
  AutoScalingGroupProvider : option ecs.AutoScalingGroupProvider;
  CapacityProviderArn : option string;
  Name : option string;
  Tags : list Tag }.

Record CreateCapacityProviderInput : Type := mkCreateInput {
  CreateAutoScalingGroupProvider : option ecs.AutoScalingGroupProvider;
  CreateName : option string;
  CreateTags : list Tag }.

Record CreateCapacityProviderOutput : Type := mkCreateOutput {
  CreatedCapacityProvider : option CapacityProvider }.

Record DescribeCapacityProvidersInput : Type := mkDescribeInput {
  CapacityProviders : list (option string);
  Include : list (option string) }.

Definition ClusterFieldTags : string := "TAGS".
End ecsapi.

(** [schema.ResourceData] of the capacity provider: the identifier and
    the attributes as generic values. *)
Record EcsResourceData : Type := mkEcsResourceData {
  EcsId : string;
  ecsAttrs : gmap string Value }.

(** A remote call issued through the ECS client. *)
Inductive EcsCall : Type :=
  | CallCreateCapacityProvider (input : ecsapi.CreateCapacityProviderInput)
  | CallDescribeCapacityProviders (input : ecsapi.DescribeCapacityProvidersInput).

(** The ECS side as one handler invocation meets it ([inr] is success).
    The decoder allocates every member of the described list. *)
Record ECS : Type := mkECS {
  CreateCapacityProvider :
    ecsapi.CreateCapacityProviderInput ->
    error + ecsapi.CreateCapacityProviderOutput;
  DescribeCapacityProviders :
    ecsapi.DescribeCapacityProvidersInput ->
    error + list ecsapi.CapacityProvider }.

(** What the handlers use from outside this file and its SDK structures,
    taken as given: the tag helpers of [keyvaluetags], and the verdict of
    the schema-driven writer behind [d.Set] on a structured value, which
    is an error or the value it stores.
    [EcsTags m] is [keyvaluetags.New(m).IgnoreAws().EcsTags()] and
    [TagsMap tags] is [keyvaluetags.EcsKeyValueTags(tags).IgnoreAws().Map()]. *)
Record Framework : Type := mkFramework {
  EcsTags : gmap string Value -> list ecsapi.Tag;
  TagsMap : list ecsapi.Tag -> gmap string string;
  Write : string -> Value -> error + Value }.

Record EcsState : Type := mkEcsState {
  ecsData : EcsResourceData;
  ecsTrace : list EcsCall }.

Definition ME (A : Type) : Type := EcsState -> outcome (A * EcsState).

#[global] Instance ME_ret : MRet ME := fun A a st => Done (a, st).
#[global] Instance ME_bind : MBind ME :=
  fun A B f m st =>
    match m st with
    | Done (a, st') => f a st'
    | Panic => Panic
    end.

(** A computation that may panic, run inside a handler. *)
Definition lift {A : Type} (o : outcome A) : ME A :=
  fun st => match o with Done a => Done (a, st) | Panic => Panic end.

(** The zero value [d.Get] returns for an unset attribute, by the type
    the schema gives it: [name] and [arn] are strings,
    [auto_scaling_group_provider] is a list and [tags] a map. *)
Definition zeroValue (key : string) : Value :=
  if decide (key = "name") then VString ""
  else if decide (key = "arn") then VString ""
  else if decide (key = "auto_scaling_group_provider") then VList []
  else if decide (key = "tags") then VMap ∅
  else VNil.

(** [d.Id()], [d.SetId(id)], [d.Get(key)] *)
Definition ecsGetId : ME string := fun st => Done (EcsId (ecsData st), st).

Definition ecsSetId (id : string) : ME unit :=
  fun st =>
    Done (tt, mkEcsState (mkEcsResourceData id (ecsAttrs (ecsData st)))
                         (ecsTrace st)).

Definition ecsGet (key : string) : ME Value :=
  fun st => Done (default (zeroValue key) (ecsAttrs (ecsData st) !! key), st).

(** Whether a value is the zero value of its type. *)
Definition isZero (v : Value) : bool :=
  match v with
  | VNil => true
  | VString s => isEmpty s
  | VInt n | VInt64 n => (n =? 0)%Z
  | VList l => match l with [] => true | _ => false end
  | VMap m => match map_to_list m with [] => true | _ => false end
  | VMapList l => match l with [] => true | _ => false end
  end.

(** [d.GetOk(key)]: the value, and whether it is set to something other
    than the zero value. *)
Definition ecsGetOk (key : string) : ME (Value * bool) :=
  fun st =>
    match ecsAttrs (ecsData st) !! key with
    | Some v => Done ((v, negb (isZero v)), st)
    | None => Done ((zeroValue key, false), st)
    end.

(** [d.Set(key, value)] with a [*string]: the string is stored, a nil
    pointer leaves the attribute unset. *)
Definition ecsSetPtr (key : string) (value : option string) : ME unit :=
  fun st =>
    Done (tt,
          mkEcsState
            (mkEcsResourceData (EcsId (ecsData st))
               match value with
               | Some s => <[key := VString s]> (ecsAttrs (ecsData st))
               | None => delete key (ecsAttrs (ecsData st))
               end)
            (ecsTrace st)).

(** [d.Set(key, value)] with a structured value: the writer's error, or
    nil with the value it stores. *)
Definition ecsSet (fw : Framework) (key : string) (value : Value)
    : ME (option error) :=
  fun st =>
    match Write fw key value with
    | inl err => Done (Some err, st)
    | inr stored =>
        Done (None,
              mkEcsState
                (mkEcsResourceData (EcsId (ecsData st))
                   (<[key := stored]> (ecsAttrs (ecsData st))))
                (ecsTrace st))
    end.

Definition ecsCall {A : Type} (c : EcsCall) (answer : A) : ME A :=
  fun st => Done (answer, mkEcsState (ecsData st) (ecsTrace st ++ [c])).

(** The loop of the read handler: the first described provider whose
    ARN, read through [aws.StringValue], is the identifier. *)
Fixpoint scanProviders (id : string) (cps : list ecsapi.CapacityProvider)
    : option ecsapi.CapacityProvider :=
  match cps with
  | [] => None
  | cp :: rest =>
      if String.eqb (aws.StringValue (ecsapi.CapacityProviderArn cp)) id
      then Some cp
      else scanProviders id rest
  end.

(** The describe request for one identifier, tags included. *)
Definition describeInput (id : string) : ecsapi.DescribeCapacityProvidersInput :=
  ecsapi.mkDescribeInput [Some id] [Some ecsapi.ClusterFieldTags].

(** The handlers take [conn], the [ecsconn] field of the client in
    [meta] and the one field of [meta] they use. *)
Definition resourceAwsEcsCapacityProviderRead (fw : Framework) (conn : ECS)
    : ME (option error) :=
  id ← ecsGetId;
  let input := describeInput id in
  output ← ecsCall (CallDescribeCapacityProviders input)
                   (DescribeCapacityProviders conn input);
  match output with
  | inl err =>
      id ← ecsGetId;
      mret (Some (Errorf "error reading ECS Capacity Provider (%s): %s"
                    [ArgString id; ArgError err]))
  | inr CapacityProviders =>
      id ← ecsGetId;
      match scanProviders id CapacityProviders with
      | None => ecsSetId "";; mret None
      | Some provider =>
          ecsSetPtr "arn" (ecsapi.CapacityProviderArn provider);;
          ecsSetPtr "name" (ecsapi.Name provider);;
          err ← ecsSet fw "tags"
                  (VMap (VString <$> TagsMap fw (ecsapi.Tags provider)));
          match err with
          | Some e =>
              mret (Some (Errorf "error setting tags: %s" [ArgError e]))
          | None =>
              flattened ← lift (flattenAutoScalingGroupProvider
                                  (ecsapi.AutoScalingGroupProvider provider));
              err ← ecsSet fw "auto_scaling_group_provider" (VMapList flattened);
              match err with
              | Some e =>
                  mret (Some (Errorf "error setting autoscaling group provider: %s"
                                [ArgError e]))
              | None => mret None
              end
          end
      end
  end.

(** The tags of the create request: none unless [tags] is set to a
    non-empty map. *)
Definition createTags (fw : Framework) : ME (list ecsapi.Tag) :=
  '(t, ok) ← ecsGetOk "tags";
  if ok : bool
  then m ← lift (assertMap t); mret (EcsTags fw m)
  else mret [].

Definition resourceAwsEcsCapacityProviderCreate (fw : Framework) (conn : ECS)
    : ME (option error) :=
  tags ← createTags fw;
  name ← ecsGet "name";
  name ← lift (assertString name);
  configured ← ecsGet "auto_scaling_group_provider";
  prov ← lift (expandAutoScalingGroupProvider configured);
  let input := ecsapi.mkCreateInput prov (Some name) tags in
  out ← ecsCall (CallCreateCapacityProvider input)
                (CreateCapacityProvider conn input);
  match out with
  | inl err =>
      mret (Some (Errorf "error creating capacity provider: %s" [ArgError err]))
  | inr out =>
      match ecsapi.CreatedCapacityProvider out with
      | None => lift Panic
      | Some provider =>
          ecsSetId (aws.StringValue (ecsapi.CapacityProviderArn provider));;
          resourceAwsEcsCapacityProviderRead fw conn
      end
  end.

(** A described provider matches an identifier when its ARN, read
    through [aws.StringValue], is the identifier. *)
Definition arnIs (id : string) (cp : ecsapi.CapacityProvider) : Prop :=
  aws.StringValue (ecsapi.CapacityProviderArn cp) = id.

(** The value an attribute of the capacity provider reads as. *)
Definition ecsAttr (d : EcsResourceData) (key : string) : Value :=
  default (zeroValue key) (ecsAttrs d !! key).

(** The state after the describe call for [id] has been issued. *)
Definition afterDescribe (id : string) (st : EcsState) : EcsState :=
  mkEcsState (ecsData st)
    (ecsTrace st ++ [CallDescribeCapacityProviders (describeInput id)]).

(** The state after the create call has been issued. *)
Definition afterCreate (input : ecsapi.CreateCapacityProviderInput)
    (st : EcsState) : EcsState :=
  mkEcsState (ecsData st) (ecsTrace st ++ [CallCreateCapacityProvider input]).

(** Sample inputs: helpers that know no tags and a writer that stores
    what it is given; the provider [cp1] as the remote describes it, with
    and without a managed scaling. *)
Definition plainFramework : Framework :=
  mkFramework (fun _ => []) (fun _ => ∅) (fun _ v => inr v).

Definition cp1Arn : string :=
  "arn:aws:ecs:us-east-1:123456789012:capacity-provider/cp1".

Definition cp1Scaled : ecsapi.CapacityProvider :=
  ecsapi.mkCapacityProvider (Some defaulted) (Some cp1Arn) (Some "cp1") [].

Definition cp1Bare : ecsapi.CapacityProvider :=
  ecsapi.mkCapacityProvider
    (Some (ecs.mkAutoScalingGroupProvider (Some "arn:aws:autoscaling:asg/x")
             None None))
    (Some cp1Arn) (Some "cp1") [].

Definition ecsConnOf (described : list ecsapi.CapacityProvider) : ECS :=
  mkECS (fun _ => inr (ecsapi.mkCreateOutput (Some cp1Bare)))
        (fun _ => inr described).

(** The capacity provider [cp1] as tracked, and as configured before
    creation without a managed scaling. *)
Definition ecsTrackedCp1 : EcsState :=
  mkEcsState (mkEcsResourceData cp1Arn (<["name" := VString "cp1"]> ∅)) [].

Definition ecsConfiguredCp1 : EcsState :=
  mkEcsState
    (mkEcsResourceData EmptyString
       (<["name" := VString "cp1"]>
        (<["auto_scaling_group_provider" := noManagedScaling]> ∅))) [].

(** The tags the create request carries for the configured [tags]. *)
Definition requestTags (fw : Framework) (d : EcsResourceData)
    : list ecsapi.Tag :=
  match ecsAttrs d !! "tags" with
  | Some (VMap m) => if decide (m = ∅) then [] else EcsTags fw m
  | _ => []
  end.

(** The create request for a name and an expanded provider. *)
Definition createRequest (fw : Framework) (d : EcsResourceData)
    (name : string) (prov : option ecs.AutoScalingGroupProvider)
    : ecsapi.CreateCapacityProviderInput :=
  ecsapi.mkCreateInput prov (Some name) (requestTags fw d).

(** The capacity provider [cp1] configured with one tag. *)
Definition ecsTaggedCp1 : EcsState :=
  mkEcsState
    (mkEcsResourceData EmptyString
       (<["name" := VString "cp1"]>
        (<["tags" := VMap (<["team" := VString "infra"]> ∅)]>
        (<["auto_scaling_group_provider" := statusOnly]> ∅)))) [].

(** Helpers that turn any configured tags into the one tag [team]. *)
Definition teamTag : ecsapi.Tag := ecsapi.mkTag (Some "team") (Some "infra").

Definition taggingFramework : Framework :=
  mkFramework (fun _ => [teamTag]) (fun _ => ∅) (fun _ v => inr v).

(** A client whose describe call fails, and helpers whose writer
    rejects the tags. *)
Definition ecsFailingConn : ECS :=
  mkECS (fun _ => inl (SdkError "timeout")) (fun _ => inl (SdkError "timeout")).

Definition rejectingFramework : Framework :=
  mkFramework (fun _ => []) (fun _ => ∅)
    (fun key v => if decide (key = "tags") then inl (SdkError "bad tags")
                  else inr v).

(** * Properties *)

(** ** The identifier codec *)

Section Codec.

Lemma Split_nonnil s sep : Split s sep <> [].
Proof.
  destruct s as [|c s]; simpl; [discriminate|].
  destruct (Ascii.eqb c sep); [discriminate|].
  destruct (Split s sep); discriminate.
Qed.

Lemma Split_length s sep : length (Split s sep) = S (Count s sep).
Proof.
  induction s as [|c s IH]; simpl; [reflexivity|].
  destruct (Ascii.eqb c sep); simpl; [by rewrite IH|].
  destruct (Split s sep) as [|p ps] eqn:E; simpl in *; [discriminate|].
  exact IH.
Qed.

Lemma Split_no_sep s sep : Count s sep = 0 -> Split s sep = [s].
Proof.
  induction s as [|c s IH]; simpl; [reflexivity|].
  destruct (Ascii.eqb c sep); [discriminate|].
  intros H. by rewrite (IH H).
Qed.

Lemma Split_app_sep a b sep :
  Count a sep = 0 -> Split (a ++ String sep b) sep = a :: Split b sep.
Proof.
  induction a as [|c a IH]; simpl.
  - intros _. by rewrite Ascii.eqb_refl.
  - destruct (Ascii.eqb c sep); [discriminate|].
    intros H. by rewrite (IH H).
Qed.

Lemma Count_app a b sep : Count (a ++ b) sep = Count a sep + Count b sep.
Proof.
  induction a as [|c a IH]; simpl; [reflexivity|].
  destruct (Ascii.eqb c sep); simpl; by rewrite IH.
Qed.

Lemma Join_Split s sep : Join (Split s sep) sep = s.
Proof.
  induction s as [|c s IH]; simpl; [reflexivity|].
  destruct (Ascii.eqb c sep) eqn:E.
  - apply Ascii.eqb_eq in E. subst c.
    pose proof (Split_nonnil s sep) as Hn.
    destruct (Split s sep) as [|p ps]; [done|].
    simpl in *. by rewrite IH.
  - pose proof (Split_nonnil s sep) as Hn.
    destruct (Split s sep) as [|p ps]; [done|].
    destruct ps as [|q qs]; simpl in *; by rewrite <- IH.
Qed.

Lemma Split_parts_no_sep s sep :
  Forall (fun p => Count p sep = 0) (Split s sep).
Proof.
  induction s as [|c s IH]; simpl.
  - by constructor.
  - destruct (Ascii.eqb c sep) eqn:E.
    + by constructor.
    + destruct (Split s sep) as [|p ps].
      * constructor; [simpl; by rewrite E|constructor].
      * inversion IH; subst. constructor; [simpl; by rewrite E|done].
Qed.

Lemma isEmpty_false s : s <> EmptyString -> isEmpty s = false.
Proof. by destruct s. Qed.

Lemma isEmpty_true s : isEmpty s = true -> s = EmptyString.
Proof. by destruct s. Qed.

Lemma ParseId_ok_inv id a b :
  resourceAwsRoute53VPCAssociationAuthorizationParseId id = (a, b, None) ->
  a <> EmptyString /\ b <> EmptyString /\
  Count a colon = 0 /\ Count b colon = 0 /\ id = encodeId a b.
Proof.
  unfold resourceAwsRoute53VPCAssociationAuthorizationParseId. intros H.
  pose proof (Join_Split id colon) as HJ.
  pose proof (Split_parts_no_sep id colon) as HF.
  destruct (Split id colon) as [|p0 [|p1 [|p2 ps]]]; try discriminate.
  destruct (isEmpty p0) eqn:E0; [discriminate|].
  destruct (isEmpty p1) eqn:E1; [discriminate|].
  simpl in H. injection H as <- <-.
  inversion HF as [|? ? H0 HF']; subst. inversion HF' as [|? ? H1 _]; subst.
  repeat split; try done.
  - intros ->. discriminate.
  - intros ->. discriminate.
Qed.

Lemma wellFormed_Split id :
  wellFormed id ->
  exists a b, a <> EmptyString /\ b <> EmptyString /\ Split id colon = [a; b].
Proof.
  intros (a & b & Ha & Hb & Ca & Cb & ->). exists a, b.
  repeat split; try done.
  unfold encodeId. by rewrite (Split_app_sep a b colon Ca), (Split_no_sep b colon Cb).
Qed.

End Codec.

(** C1. Identifier round-trip: for non-empty colon-free [a] and [b],
    decoding the identifier the Create handler stores,
    [fmt.Sprintf("%s:%s", a, b)], gives back [(a, b)] and no error. *)
Theorem ParseId_roundtrip (a b : string) :
  a <> EmptyString -> b <> EmptyString ->
  Count a colon = 0 -> Count b colon = 0 ->
  resourceAwsRoute53VPCAssociationAuthorizationParseId (encodeId a b)
  = (a, b, None).
Proof.
  intros Ha Hb Ca Cb. unfold resourceAwsRoute53VPCAssociationAuthorizationParseId, encodeId.
  rewrite (Split_app_sep a b colon Ca), (Split_no_sep b colon Cb).
  by rewrite (isEmpty_false a Ha), (isEmpty_false b Hb).
Qed.

Lemma ParseId_roundtrip_witness :
  resourceAwsRoute53VPCAssociationAuthorizationParseId (encodeId "Z1" "V1")
  = ("Z1", "V1", None).
Proof.
  apply (ParseId_roundtrip "Z1" "V1");
    [discriminate | discriminate | reflexivity | reflexivity].
Defined.

(** C2. Identifier rejection: every input that is not two non-empty
    colon-separated parts gets the format error and empty results; so do
    the four malformed identifiers of the specification, and so does
    every input with more than one colon. *)
Theorem ParseId_rejects (id : string) :
  (~ wellFormed id ->
     resourceAwsRoute53VPCAssociationAuthorizationParseId id
     = (EmptyString, EmptyString, Some (formatError id))) /\
  (1 < Count id colon ->
     resourceAwsRoute53VPCAssociationAuthorizationParseId id
     = (EmptyString, EmptyString, Some (formatError id))) /\
  (forall bad, bad ∈ [""; "onlyonepart"; ":missingzone"; "missingvpc:"] ->
     resourceAwsRoute53VPCAssociationAuthorizationParseId bad
     = (EmptyString, EmptyString, Some (formatError bad))).
Proof.
  split; [|split].
  - intros Hnw.
    destruct (resourceAwsRoute53VPCAssociationAuthorizationParseId id) as [[a b] [e|]] eqn:E.
    + unfold resourceAwsRoute53VPCAssociationAuthorizationParseId in E.
      destruct (Split id colon) as [|p0 [|p1 [|p2 ps]]];
        try (by injection E as <- <- <-).
      destruct (isEmpty p0 || isEmpty p1);
        [by injection E as <- <- <-|discriminate].
    + exfalso. apply Hnw. exists a, b. by apply ParseId_ok_inv.
  - intros Hc. unfold resourceAwsRoute53VPCAssociationAuthorizationParseId.
    pose proof (Split_length id colon) as HL.
    destruct (Split id colon) as [|p0 [|p1 [|p2 ps]]]; try reflexivity.
    simpl in HL. lia.
  - intros bad Hin.
    repeat (apply elem_of_cons in Hin as [->|Hin]; [reflexivity|]).
    by apply elem_of_nil in Hin.
Qed.

Lemma ParseId_rejects_witness :
  ~ wellFormed "missingvpc:" /\
  resourceAwsRoute53VPCAssociationAuthorizationParseId "missingvpc:"
  = (EmptyString, EmptyString, Some (formatError "missingvpc:")).
Proof.
  assert (Hnw : ~ wellFormed "missingvpc:").
  { intros H. apply wellFormed_Split in H as (a & b & _ & Hb & E).
    vm_compute in E. injection E as _ <-. by apply Hb. }
  split; [exact Hnw|].
  exact (proj1 (ParseId_rejects "missingvpc:") Hnw).
Defined.

(** ** Lookup by scan *)

Section Lookup.

Lemma scanVPCs_first vpcID pre v post :
  Forall (fun u => ~ vpcIdIs vpcID u) pre ->
  vpcIdIs vpcID v ->
  scanVPCs vpcID (pre ++ v :: post)%list = Some v.
Proof.
  intros Hpre Hv. induction Hpre as [|u pre Hu _ IH]; simpl.
  - unfold vpcIdIs in Hv. rewrite Hv. by rewrite String.eqb_refl.
  - destruct (String.eqb_spec vpcID (aws.StringValue (route53.VPCId u)))
      as [E|_]; [|exact IH].
    exfalso. by apply Hu.
Qed.

Lemma scanVPCs_none vpcID VPCs :
  Forall (fun u => ~ vpcIdIs vpcID u) VPCs ->
  scanVPCs vpcID VPCs = None.
Proof.
  induction 1 as [|u l Hu _ IH]; simpl; [reflexivity|].
  destruct (String.eqb_spec vpcID (aws.StringValue (route53.VPCId u)))
    as [E|_]; [|exact IH].
  exfalso. by apply Hu.
Qed.

Lemma scanVPCs_Some_inv vpcID VPCs v :
  scanVPCs vpcID VPCs = Some v ->
  exists pre post, VPCs = (pre ++ v :: post)%list /\
    Forall (fun u => ~ vpcIdIs vpcID u) pre /\ vpcIdIs vpcID v.
Proof.
  induction VPCs as [|u l IH]; simpl; [discriminate|].
  destruct (String.eqb_spec vpcID (aws.StringValue (route53.VPCId u)))
    as [E|N].
  - intros [= <-]. exists [], l. by repeat split.
  - intros H. destruct (IH H) as (pre & post & -> & Hpre & Hv).
    exists (u :: pre), post. repeat split; [|done].
    constructor; [|done]. unfold vpcIdIs. congruence.
Qed.

Lemma route53GetVPCAssociation_listed conn zoneID vpcID st VPCs :
  Validate conn (listInput zoneID) = None ->
  ListVPCAssociationAuthorizations conn (listInput zoneID) = inr VPCs ->
  route53GetVPCAssociation conn zoneID vpcID st
  = Done ((scanVPCs vpcID VPCs, None), afterList zoneID st).
Proof.
  intros HV HL. unfold route53GetVPCAssociation. rewrite HV.
  unfold mbind, M_bind, call. by rewrite HL.
Qed.

Lemma route53GetVPCAssociation_failed conn zoneID vpcID st err :
  Validate conn (listInput zoneID) = None ->
  ListVPCAssociationAuthorizations conn (listInput zoneID) = inl err ->
  route53GetVPCAssociation conn zoneID vpcID st
  = Done ((None, Some err), afterList zoneID st).
Proof.
  intros HV HL. unfold route53GetVPCAssociation. rewrite HV.
  unfold mbind, M_bind, call. by rewrite HL.
Qed.

End Lookup.

(** C3. Lookup-by-scan: once the list request has passed validation,
    [route53GetVPCAssociation] answers from the single page the list
    call returns.  It returns the first entry whose VPC id equals the
    target when there is one, and a nil entry with a nil error when
    there is none; an error of the list call comes back as that error,
    which no not-found result is. *)
Theorem route53GetVPCAssociation_scan
    (conn : Route53) (zoneID vpcID : string) (st : HState) :
  Validate conn (listInput zoneID) = None ->
  (forall VPCs,
     ListVPCAssociationAuthorizations conn (listInput zoneID) = inr VPCs ->
     (forall pre v post,
        VPCs = (pre ++ v :: post)%list ->
        Forall (fun u => ~ vpcIdIs vpcID u) pre ->
        vpcIdIs vpcID v ->
        route53GetVPCAssociation conn zoneID vpcID st
        = Done ((Some v, None), afterList zoneID st)) /\
     (Forall (fun u => ~ vpcIdIs vpcID u) VPCs ->
        route53GetVPCAssociation conn zoneID vpcID st
        = Done ((None, None), afterList zoneID st))) /\
  (forall err,
     ListVPCAssociationAuthorizations conn (listInput zoneID) = inl err ->
     route53GetVPCAssociation conn zoneID vpcID st
     = Done ((None, Some err), afterList zoneID st) /\
     route53GetVPCAssociation conn zoneID vpcID st
     <> Done ((None, None), afterList zoneID st)).
Proof.
  intros HV. split.
  - intros VPCs HL.
    rewrite (route53GetVPCAssociation_listed conn zoneID vpcID st VPCs HV HL).
    split.
    + intros pre v post -> Hpre Hv. by rewrite scanVPCs_first.
    + intros Hnone. by rewrite scanVPCs_none.
  - intros err HL.
    rewrite (route53GetVPCAssociation_failed conn zoneID vpcID st err HV HL).
    split; [reflexivity|discriminate].
Qed.

Lemma route53GetVPCAssociation_scan_witness :
  route53GetVPCAssociation listingConn "Z1" "v2" trackedZ1V1
  = Done ((Some v2, None), afterList "Z1" trackedZ1V1) /\
  route53GetVPCAssociation listingConn "Z1" "v3" trackedZ1V1
  = Done ((None, None), afterList "Z1" trackedZ1V1).
Proof.
  split.
  - refine (proj1 (proj1 (route53GetVPCAssociation_scan
                            listingConn "Z1" "v2" trackedZ1V1 eq_refl)
                     [v1; v2] eq_refl) [v1] v2 [] eq_refl _ eq_refl).
    constructor; [discriminate|constructor].
  - refine (proj2 (proj1 (route53GetVPCAssociation_scan
                            listingConn "Z1" "v3" trackedZ1V1 eq_refl)
                     [v1; v2] eq_refl) _).
    repeat constructor; discriminate.
Defined.

(** ** The lifecycle handlers of the authorization *)

Section Lifecycle.

Lemma Contains_empty s : Contains s "" = true.
Proof. by destruct s. Qed.

Lemma isAWSErr_NoSuchHostedZone message :
  isAWSErr (Some (AwsError route53.ErrCodeNoSuchHostedZone message))
           route53.ErrCodeNoSuchHostedZone "" = true.
Proof. unfold isAWSErr. by rewrite String.eqb_refl, Contains_empty. Qed.

Lemma route53GetVPCAssociation_absent conn zoneID vpcID st :
  remoteAbsent conn zoneID vpcID ->
  (exists message,
     route53GetVPCAssociation conn zoneID vpcID st
     = Done ((None, Some (AwsError route53.ErrCodeNoSuchHostedZone message)),
             afterList zoneID st)) \/
  route53GetVPCAssociation conn zoneID vpcID st
  = Done ((None, None), afterList zoneID st).
Proof.
  intros [HV [[message HL]|[VPCs [HL Hnone]]]].
  - left. exists message. by apply route53GetVPCAssociation_failed.
  - right. rewrite (route53GetVPCAssociation_listed _ _ _ _ VPCs HV HL).
    by rewrite scanVPCs_none.
Qed.

(** Read on an identifier that decodes, with the remote reporting
    absence: one list call, the identifier cleared, no error. *)
Lemma Read_absent meta st zoneID vpcID :
  resourceAwsRoute53VPCAssociationAuthorizationParseId (Id (data st))
  = (zoneID, vpcID, None) ->
  remoteAbsent (r53conn meta) zoneID vpcID ->
  resourceAwsRoute53CreateVPCAssociationAuthorizationRead meta st
  = Done (None, mkHState (cleared (data st)) (trace (afterList zoneID st))).
Proof.
  intros HP HA.
  unfold resourceAwsRoute53CreateVPCAssociationAuthorizationRead.
  unfold mbind at 1, M_bind at 1, getId. rewrite HP.
  unfold mbind at 1, M_bind at 1.
  destruct (route53GetVPCAssociation_absent _ _ _ st HA) as [[message ->]| ->].
  - by rewrite isAWSErr_NoSuchHostedZone.
  - reflexivity.
Qed.

(** Read on the empty identifier: the format error, nothing changed and
    no call issued, whatever the client. *)
Lemma Read_empty_id meta st :
  Id (data st) = EmptyString ->
  resourceAwsRoute53CreateVPCAssociationAuthorizationRead meta st
  = Done (Some (formatError ""), st).
Proof.
  intros HI.
  unfold resourceAwsRoute53CreateVPCAssociationAuthorizationRead.
  unfold mbind at 1, M_bind at 1, getId. by rewrite HI.
Qed.

(** Delete returns nil whatever the delete call answers. *)
Lemma Delete_returns_nil meta st zoneID vpcID :
  resourceAwsRoute53VPCAssociationAuthorizationParseId (Id (data st))
  = (zoneID, vpcID, None) ->
  resourceAwsRoute53CreateVPCAssociationAuthorizationDelete meta st
  = Done (None,
          mkHState (data st)
            (trace st ++
             [CallDeleteVPCAssociationAuthorization
                (route53.mkDeleteInput (Some zoneID)
                   (Some (route53.mkVPC (Some vpcID)
                            (Some (attr (data st) "vpc_region")))))])).
Proof.
  intros HP.
  unfold resourceAwsRoute53CreateVPCAssociationAuthorizationDelete.
  unfold mbind at 1, M_bind at 1, getId. by rewrite HP.
Qed.

End Lifecycle.

(** C4. Error propagation on delete does not hold of the code: with the
    identifier [Z1:V1] decoded and the delete call answered by an API
    error, the Delete handler has issued the call and returns nil, the
    error dropped. *)
Theorem Delete_discards_api_error :
  resourceAwsRoute53VPCAssociationAuthorizationParseId (Id (data trackedZ1V1))
  = ("Z1", "V1", None) /\
  DeleteVPCAssociationAuthorization refusingConn
    (route53.mkDeleteInput (Some "Z1")
       (Some (route53.mkVPC (Some "V1") (Some ""))))
  = Some (AwsError "AccessDenied" "not authorized") /\
  resourceAwsRoute53CreateVPCAssociationAuthorizationDelete
    (clientOf refusingConn) trackedZ1V1
  = Done (None,
          mkHState (data trackedZ1V1)
            [CallDeleteVPCAssociationAuthorization
               (route53.mkDeleteInput (Some "Z1")
                  (Some (route53.mkVPC (Some "V1") (Some ""))))]).
Proof.
  split; [reflexivity|]. split; [reflexivity|].
  by rewrite (Delete_returns_nil _ _ "Z1" "V1").
Qed.

(** C5, as stated, fails: the identifier [Z1:V1] decodes and the remote
    reports absence, the first Read clears the identifier and returns no
    error, and Read on the cleared resource returns the format error. *)
Lemma Read_twice_counterexample :
  resourceAwsRoute53VPCAssociationAuthorizationParseId (Id (data trackedZ1V1))
  = ("Z1", "V1", None) /\
  remoteAbsent (r53conn (clientOf emptyConn)) "Z1" "V1" /\
  exists st1,
    resourceAwsRoute53CreateVPCAssociationAuthorizationRead
      (clientOf emptyConn) trackedZ1V1 = Done (None, st1) /\
    Id (data st1) = EmptyString /\
    resourceAwsRoute53CreateVPCAssociationAuthorizationRead
      (clientOf emptyConn) st1 = Done (Some (formatError ""), st1) /\
    resourceAwsRoute53CreateVPCAssociationAuthorizationRead
      (clientOf emptyConn) st1 <> Done (None, st1).
Proof.
  split; [reflexivity|]. split.
  - split; [reflexivity|]. right. exists []. split; [reflexivity|constructor].
  - eexists. split; [reflexivity|]. split; [reflexivity|].
    split; [reflexivity|discriminate].
Qed.

(** C5, amended. For a stored identifier that decodes, with the remote
    reporting absence (no such hosted zone, or no matching entry in the
    zone's list), Read clears the identifier and returns no error, and
    does so again whenever it is called on that stored identifier.  Read
    on the already cleared resource leaves the identifier empty, issues
    no call and returns the format error. *)
Theorem Read_not_found
    (meta : AWSClient) (st : HState) (zoneID vpcID : string) :
  resourceAwsRoute53VPCAssociationAuthorizationParseId (Id (data st))
  = (zoneID, vpcID, None) ->
  remoteAbsent (r53conn meta) zoneID vpcID ->
  (forall calls,
     resourceAwsRoute53CreateVPCAssociationAuthorizationRead meta
       (mkHState (data st) calls)
     = Done (None,
             mkHState (cleared (data st))
               (calls ++ [CallListVPCAssociationAuthorizations
                            (listInput zoneID)]))) /\
  (forall meta' calls,
     resourceAwsRoute53CreateVPCAssociationAuthorizationRead meta'
       (mkHState (cleared (data st)) calls)
     = Done (Some (formatError ""), mkHState (cleared (data st)) calls)).
Proof.
  intros HP HA. split.
  - intros calls.
    by rewrite (Read_absent meta (mkHState (data st) calls) zoneID vpcID).
  - intros meta' calls. by apply Read_empty_id.
Qed.

Lemma Read_not_found_witness :
  resourceAwsRoute53CreateVPCAssociationAuthorizationRead
    (clientOf emptyConn) trackedZ1V1
  = Done (None,
          mkHState (cleared (data trackedZ1V1))
            [CallListVPCAssociationAuthorizations (listInput "Z1")]) /\
  resourceAwsRoute53CreateVPCAssociationAuthorizationRead
    (clientOf emptyConn) (mkHState (cleared (data trackedZ1V1)) [])
  = Done (Some (formatError ""), mkHState (cleared (data trackedZ1V1)) []).
Proof.
  assert (HA : remoteAbsent (r53conn (clientOf emptyConn)) "Z1" "V1").
  { split; [reflexivity|]. right. exists []. split; [reflexivity|constructor]. }
  pose proof (Read_not_found (clientOf emptyConn) trackedZ1V1 "Z1" "V1"
                eq_refl HA) as [H1 H2].
  split; [exact (H1 [])|exact (H2 (clientOf emptyConn) [])].
Defined.

(** C6. Create issues one authorize call for the configured zone and
    VPC, whose region is the configured [vpc_region] when that is not
    empty and the client's region otherwise.  When the call succeeds the
    identifier is set to [zone_id:vpc_id] and the handler continues as
    Read from that state; when it fails the error is returned wrapped
    and the identifier is left alone. *)
Theorem Create_region_and_id (meta : AWSClient) (st : HState) :
  (CreateVPCAssociationAuthorization (r53conn meta)
     (route53.mkCreateInput (Some (attr (data st) "zone_id"))
        (Some (route53.mkVPC (Some (attr (data st) "vpc_id"))
                 (Some (effectiveRegion (attr (data st) "vpc_region")
                          (region meta))))))
   = None ->
   resourceAwsRoute53CreateVPCAssociationAuthorizationCreate meta st
   = resourceAwsRoute53CreateVPCAssociationAuthorizationRead meta
       (mkHState
          (mkResourceData
             (attr (data st) "zone_id" ++ ":" ++ attr (data st) "vpc_id")
             (attrs (data st)))
          (trace st ++
           [CallCreateVPCAssociationAuthorization
              (route53.mkCreateInput (Some (attr (data st) "zone_id"))
                 (Some (route53.mkVPC (Some (attr (data st) "vpc_id"))
                          (Some (effectiveRegion
                                   (attr (data st) "vpc_region")
                                   (region meta))))))]))) /\
  (forall err,
     CreateVPCAssociationAuthorization (r53conn meta)
       (route53.mkCreateInput (Some (attr (data st) "zone_id"))
          (Some (route53.mkVPC (Some (attr (data st) "vpc_id"))
                   (Some (effectiveRegion (attr (data st) "vpc_region")
                            (region meta))))))
     = Some err ->
     resourceAwsRoute53CreateVPCAssociationAuthorizationCreate meta st
     = Done (Some (Errorf "Error creating VPC Association Authorization: %s"
                     [ArgError err]),
             mkHState (data st)
               (trace st ++
                [CallCreateVPCAssociationAuthorization
                   (route53.mkCreateInput (Some (attr (data st) "zone_id"))
                      (Some (route53.mkVPC (Some (attr (data st) "vpc_id"))
                               (Some (effectiveRegion
                                        (attr (data st) "vpc_region")
                                        (region meta))))))]))).
Proof.
  assert (HI : createInput (attr (data st) "zone_id") (attr (data st) "vpc_id")
                 (attr (data st) "vpc_region") (region meta)
               = route53.mkCreateInput (Some (attr (data st) "zone_id"))
                   (Some (route53.mkVPC (Some (attr (data st) "vpc_id"))
                            (Some (effectiveRegion
                                     (attr (data st) "vpc_region")
                                     (region meta)))))).
  { unfold createInput, effectiveRegion.
    destruct (attr (data st) "vpc_region") as [|c w]; [reflexivity|].
    by destruct (decide (String c w = EmptyString)). }
  split.
  - intros HC.
    unfold resourceAwsRoute53CreateVPCAssociationAuthorizationCreate.
    unfold mbind at 1 2 3 4, M_bind at 1 2 3 4, Get, call.
    rewrite HI, HC. simpl. reflexivity.
  - intros err HC.
    unfold resourceAwsRoute53CreateVPCAssociationAuthorizationCreate.
    unfold mbind at 1 2 3 4, M_bind at 1 2 3 4, Get, call.
    rewrite HI, HC. reflexivity.
Qed.

Lemma Create_region_and_id_witness :
  resourceAwsRoute53CreateVPCAssociationAuthorizationCreate
    (clientOf emptyConn) scenarioA
  = resourceAwsRoute53CreateVPCAssociationAuthorizationRead
      (clientOf emptyConn)
      (mkHState (mkResourceData "Z1:V1" (attrs (data scenarioA)))
         [CallCreateVPCAssociationAuthorization
            (route53.mkCreateInput (Some "Z1")
               (Some (route53.mkVPC (Some "V1") (Some "us-east-1"))))]).
Proof.
  exact (proj1 (Create_region_and_id (clientOf emptyConn) scenarioA) eq_refl).
Defined.

(** ** Flatten and expand *)

Section FlattenExpand.

Lemma expandManagedScaling_MaximumScalingStepSize ms :
  ecs.MaximumScalingStepSize (expandManagedScaling ms)
  = match index ms "maximum_scaling_step_size" with
    | VInt val => if (val =? 0)%Z then None else Some val
    | _ => None
    end.
Proof.
  expand_leaves ms.
Qed.

Lemma expandManagedScaling_MinimumScalingStepSize ms :
  ecs.MinimumScalingStepSize (expandManagedScaling ms)
  = match index ms "minimum_scaling_step_size" with
    | VInt val => if (val =? 0)%Z then None else Some val
    | _ => None
    end.
Proof.
  expand_leaves ms.
Qed.

Lemma expandManagedScaling_Status ms :
  ecs.Status (expandManagedScaling ms)
  = match index ms "status" with
    | VString val => if (0 <? String.length val)%nat then Some val else None
    | _ => None
    end.
Proof.
  expand_leaves ms.
Qed.

Lemma expandManagedScaling_TargetCapacity ms :
  ecs.TargetCapacity (expandManagedScaling ms)
  = match index ms "target_capacity" with
    | VInt val => if (val =? 0)%Z then None else Some val
    | _ => None
    end.
Proof.
  expand_leaves ms.
Qed.

Lemma expand_block p ms rest others arn mtp :
  index p "auto_scaling_group_arn" = VString arn ->
  index p "managed_termination_protection" = VString mtp ->
  index p "managed_scaling" = VList (VMap ms :: rest) ->
  expandAutoScalingGroupProvider (VList (VMap p :: others))
  = Done (Some (ecs.mkAutoScalingGroupProvider (Some arn)
                  (Some (expandManagedScaling ms))
                  (if (0 <? String.length mtp)%nat then Some mtp else None))).
Proof.
  intros Harn Hmtp Hms. unfold expandAutoScalingGroupProvider. simpl.
  rewrite Harn. simpl. rewrite Hmtp. simpl. by rewrite Hms.
Qed.

Lemma flatten_present prov msr :
  ecs.ManagedScaling_ prov = Some msr ->
  exists p ms,
    flattenAutoScalingGroupProvider (Some prov) = Done [p] /\
    p !! "managed_scaling" = Some (VMapList [ms]) /\
    ms !! "target_capacity"
    = Some (VInt64 (aws.Int64Value (ecs.TargetCapacity msr))).
Proof.
  intros H. unfold flattenAutoScalingGroupProvider. rewrite H.
  eexists _, _. split; [reflexivity|]. split.
  - by rewrite lookup_insert_eq.
  - by rewrite lookup_insert_eq.
Qed.

End FlattenExpand.

(** C7. Flatten/expand asymmetry.  Expanding a configuration with a
    [managed_scaling] block gives a request whose [TargetCapacity] is
    nil when [target_capacity] was left unset, and is the configured
    number when that is not zero; the step sizes, the status and the
    termination protection are omitted in the same way when unset.
    Flattening a response that has a managed scaling always puts
    [target_capacity] in the tree, with the value the remote returned
    (100 when it returned 100); and the tree it builds holds every leaf
    of the response, the ARN, the termination protection, the two step
    sizes, the status and the target capacity, each with the remote's
    value, or the zero value where the remote left the field nil. *)
Theorem expand_omits_flatten_includes :
  (forall p ms rest others arn mtp,
     index p "auto_scaling_group_arn" = VString arn ->
     index p "managed_termination_protection" = VString mtp ->
     index p "managed_scaling" = VList (VMap ms :: rest) ->
     exists prov msr,
       expandAutoScalingGroupProvider (VList (VMap p :: others))
       = Done (Some prov) /\
       ecs.ManagedScaling_ prov = Some msr /\
       (unsetInt (index ms "target_capacity") ->
          ecs.TargetCapacity msr = None) /\
       (forall n, n <> 0%Z -> index ms "target_capacity" = VInt n ->
          ecs.TargetCapacity msr = Some n) /\
       (unsetInt (index ms "maximum_scaling_step_size") ->
          ecs.MaximumScalingStepSize msr = None) /\
       (unsetInt (index ms "minimum_scaling_step_size") ->
          ecs.MinimumScalingStepSize msr = None) /\
       (unsetString (index ms "status") -> ecs.Status msr = None) /\
       (mtp = EmptyString -> ecs.ManagedTerminationProtection prov = None)) /\
  (forall prov msr n,
     ecs.ManagedScaling_ prov = Some msr ->
     ecs.TargetCapacity msr = Some n ->
     exists p ms,
       flattenAutoScalingGroupProvider (Some prov) = Done [p] /\
       p !! "managed_scaling" = Some (VMapList [ms]) /\
       ms !! "target_capacity" = Some (VInt64 n)) /\
  (forall prov msr,
     ecs.ManagedScaling_ prov = Some msr ->
     flattenAutoScalingGroupProvider (Some prov)
     = Done [flatTree
               (aws.StringValue (ecs.AutoScalingGroupArn prov))
               (aws.StringValue (ecs.ManagedTerminationProtection prov))
               (aws.Int64Value (ecs.MaximumScalingStepSize msr))
               (aws.Int64Value (ecs.MinimumScalingStepSize msr))
               (aws.StringValue (ecs.Status msr))
               (aws.Int64Value (ecs.TargetCapacity msr))]).
Proof.
  split; [|split].
  - intros p ms rest others arn mtp Harn Hmtp Hms.
    eexists _, _. split; [by apply (expand_block p ms rest)|].
    split; [reflexivity|].
    rewrite expandManagedScaling_TargetCapacity,
      expandManagedScaling_MaximumScalingStepSize,
      expandManagedScaling_MinimumScalingStepSize,
      expandManagedScaling_Status.
    repeat split.
    + by intros [-> | ->].
    + intros n Hn ->. by destruct (Z.eqb_spec n 0).
    + by intros [-> | ->].
    + by intros [-> | ->].
    + by intros [-> | ->].
    + by intros ->.
  - intros prov msr n Hms Hn.
    destruct (flatten_present prov msr Hms) as (p & ms & Hf & Hp & Ht).
    exists p, ms. rewrite Hn in Ht. by repeat split.
  - intros prov msr Hms. unfold flattenAutoScalingGroupProvider.
    by rewrite Hms.
Qed.

Lemma expand_omits_flatten_includes_witness :
  (exists prov msr,
     expandAutoScalingGroupProvider statusOnly = Done (Some prov) /\
     ecs.ManagedScaling_ prov = Some msr /\
     ecs.TargetCapacity msr = None) /\
  (exists p ms,
     flattenAutoScalingGroupProvider (Some defaulted) = Done [p] /\
     p !! "managed_scaling" = Some (VMapList [ms]) /\
     ms !! "target_capacity" = Some (VInt64 100)) /\
  flattenAutoScalingGroupProvider (Some defaulted)
  = Done [flatTree "arn:aws:autoscaling:asg/x" "DISABLED" 10000 1
            "ENABLED" 100].
Proof.
  split; [|split].
  - destruct (proj1 expand_omits_flatten_includes
                (<["auto_scaling_group_arn" := VString "arn:aws:autoscaling:asg/x"]>
                 (<["managed_termination_protection" := VString ""]>
                 (<["managed_scaling" :=
                      VList [VMap (<["status" := VString "ENABLED"]>
                                  (<["target_capacity" := VInt 0]> ∅))]]> ∅)))
                (<["status" := VString "ENABLED"]>
                 (<["target_capacity" := VInt 0]> ∅))
                [] [] "arn:aws:autoscaling:asg/x" "")
      as (prov & msr & He & Hm & Ht & _); [reflexivity..|].
    exists prov, msr. repeat split; [exact He|exact Hm|].
    apply Ht. by right.
  - exact (proj1 (proj2 expand_omits_flatten_includes) defaulted _ 100%Z
             eq_refl eq_refl).
  - exact (proj2 (proj2 expand_omits_flatten_includes) defaulted _ eq_refl).
Defined.

(** C8. Flatten is partial: it panics exactly on a non-nil provider
    whose [ManagedScaling] is nil, a value that expand itself produces
    from a configuration with an empty [managed_scaling] list; on a nil
    provider it returns nil and on a provider with a managed scaling it
    returns one map. *)
Theorem flatten_partial (provider : option ecs.AutoScalingGroupProvider) :
  (flattenAutoScalingGroupProvider provider = Panic <->
   exists prov, provider = Some prov /\ ecs.ManagedScaling_ prov = None) /\
  (provider = None -> flattenAutoScalingGroupProvider provider = Done []) /\
  (forall prov msr,
     provider = Some prov -> ecs.ManagedScaling_ prov = Some msr ->
     exists p, flattenAutoScalingGroupProvider provider = Done [p]) /\
  (exists prov,
     expandAutoScalingGroupProvider noManagedScaling = Done (Some prov) /\
     ecs.ManagedScaling_ prov = None /\
     flattenAutoScalingGroupProvider (Some prov) = Panic).
Proof.
  split; [|split; [|split]].
  - split.
    + destruct provider as [prov|]; [|discriminate].
      unfold flattenAutoScalingGroupProvider.
      destruct (ecs.ManagedScaling_ prov) eqn:E; [discriminate|].
      intros _. by exists prov.
    + intros (prov & -> & H). unfold flattenAutoScalingGroupProvider.
      by rewrite H.
  - by intros ->.
  - intros prov msr -> H.
    destruct (flatten_present prov msr H) as (p & ms & Hf & _).
    by exists p.
  - eexists. split; [reflexivity|]. by split.
Qed.

Lemma flatten_partial_witness :
  flattenAutoScalingGroupProvider
    (Some (ecs.mkAutoScalingGroupProvider (Some "arn:aws:autoscaling:asg/x")
             None None)) = Panic /\
  exists p, flattenAutoScalingGroupProvider (Some defaulted) = Done [p].
Proof.
  split.
  - apply (proj1 (flatten_partial _)). eexists. by split.
  - exact (proj1 (proj2 (proj2 (flatten_partial (Some defaulted))))
             defaulted _ eq_refl eq_refl).
Defined.

(** ** The capacity provider handlers *)

(** C9. Deleting a capacity provider is a local no-op: the Delete
    handler issues no remote call, changes nothing and returns no error,
    and the destroy step around it only clears the identifier of the
    tracked object. *)
Theorem EcsCapacityProviderDelete_noop (meta : AWSClient) (st : HState) :
  resourceAwsEcsCapacityProviderDelete meta st = Done (None, st) /\
  destroy resourceAwsEcsCapacityProviderDelete meta st
  = Done (None, mkHState (cleared (data st)) (trace st)).
Proof. split; reflexivity. Qed.

(** C10. Import identifier reconstruction: called with the short name
    [n] as identifier, the import handler sets the attribute [name] to
    [n], sets the identifier to
    [arn:<partition>:ecs:<region>:<accountID>:capacity-provider/<n>]
    from the client's partition, region and account, issues no call and
    returns that one resource with no error. *)
Theorem EcsCapacityProviderImport_arn (meta : AWSClient) (st : HState) :
  resourceAwsEcsCapacityProviderImport meta st
  = Done (([mkResourceData
              ("arn:" ++ partition meta ++ ":ecs:" ++ region meta ++ ":" ++
               accountid meta ++ ":capacity-provider/" ++ Id (data st))
              (<["name" := Id (data st)]> (attrs (data st)))],
           None),
          mkHState
            (mkResourceData
               ("arn:" ++ partition meta ++ ":ecs:" ++ region meta ++ ":" ++
                accountid meta ++ ":capacity-provider/" ++ Id (data st))
               (<["name" := Id (data st)]> (attrs (data st))))
            (trace st)).
Proof.
  unfold resourceAwsEcsCapacityProviderImport, ARN_String.
  unfold mbind, M_bind, getId, Set_, SetId, getData, mret, M_ret. simpl.
  reflexivity.
Qed.

(** The import of [cp1] ends in the state of the tracked provider. *)
Example Import_cp1 :
  resourceAwsEcsCapacityProviderImport (clientOf emptyConn) importingCp1
  = Done (([data trackedCp1], None), trackedCp1).
Proof. vm_compute. reflexivity. Qed.

(** Destroying the tracked provider leaves no call in the trace. *)
Example Destroy_cp1 :
  destroy resourceAwsEcsCapacityProviderDelete (clientOf emptyConn) trackedCp1
  = Done (None, mkHState (cleared (data trackedCp1)) []).
Proof. reflexivity. Qed.

(** * Further properties *)

(** ** More on the identifier codec *)

(** X1. A decoded identifier is the encoding of what was decoded: the two
    results are non-empty, free of colons, and rebuild the input. *)
Theorem ParseId_decode_encode (id zoneID vpcID : string) :
  resourceAwsRoute53VPCAssociationAuthorizationParseId id
  = (zoneID, vpcID, None) ->
  encodeId zoneID vpcID = id /\
  zoneID <> EmptyString /\ vpcID <> EmptyString /\
  Count zoneID colon = 0 /\ Count vpcID colon = 0.
Proof.
  intros H. destruct (ParseId_ok_inv id zoneID vpcID H) as (Hz & Hv & Cz & Cv & E).
  by repeat split.
Qed.

Lemma ParseId_decode_encode_witness :
  encodeId "Z1" "V1" = "Z1:V1" /\
  "Z1" <> EmptyString /\ "V1" <> EmptyString /\
  Count "Z1" colon = 0 /\ Count "V1" colon = 0.
Proof. exact (ParseId_decode_encode "Z1:V1" "Z1" "V1" eq_refl). Defined.

(** X2. Identifiers do not collide: when the zone halves carry no colon,
    equal identifiers come from equal pairs. *)
Theorem encodeId_injective (a b a' b' : string) :
  Count a colon = 0 -> Count a' colon = 0 ->
  encodeId a b = encodeId a' b' -> a = a' /\ b = b'.
Proof.
  unfold encodeId. revert a'.
  induction a as [|c a IH]; intros [|c' a']; simpl.
  - intros _ _ [= ->]. done.
  - intros _ H [= <- _]. by rewrite Ascii.eqb_refl in H.
  - intros H _ [= -> _]. by rewrite Ascii.eqb_refl in H.
  - destruct (Ascii.eqb c colon) eqn:Ec; [discriminate|].
    destruct (Ascii.eqb c' colon) eqn:Ec'; [discriminate|].
    intros Ha Ha' [= -> E]. destruct (IH a' Ha Ha' E) as [-> ->]. done.
Qed.

Lemma encodeId_injective_witness : "Z1" = "Z1" /\ "V1" = "V1".
Proof.
  exact (encodeId_injective "Z1" "V1" "Z1" "V1" eq_refl eq_refl eq_refl).
Defined.

(** ** More on lookup by scan *)

(** X3. What the lookup returns is sound: an entry never comes with an
    error, and a returned entry is on the page the list call answered,
    matches the target, and has no match before it. *)
Theorem route53GetVPCAssociation_sound
    (conn : Route53) (zoneID vpcID : string) (st st' : HState)
    (v : route53.VPC) (err : option error) :
  route53GetVPCAssociation conn zoneID vpcID st = Done ((Some v, err), st') ->
  err = None /\ st' = afterList zoneID st /\
  exists pre post,
    ListVPCAssociationAuthorizations conn (listInput zoneID)
    = inr (pre ++ v :: post)%list /\
    Forall (fun u => ~ vpcIdIs vpcID u) pre /\ vpcIdIs vpcID v.
Proof.
  unfold route53GetVPCAssociation.
  destruct (Validate conn (listInput zoneID)); [discriminate|].
  unfold mbind, M_bind, call.
  destruct (ListVPCAssociationAuthorizations conn (listInput zoneID))
    as [e|VPCs]; [discriminate|].
  intros [= Hs <- <-].
  destruct (scanVPCs_Some_inv vpcID VPCs v Hs) as (pre & post & -> & Hpre & Hv).
  repeat split. by exists pre, post.
Qed.

Lemma route53GetVPCAssociation_sound_witness :
  exists pre post,
    ListVPCAssociationAuthorizations listingConn (listInput "Z1")
    = inr (pre ++ v2 :: post)%list /\
    Forall (fun u => ~ vpcIdIs "v2" u) pre /\ vpcIdIs "v2" v2.
Proof.
  exact (proj2 (proj2 (route53GetVPCAssociation_sound listingConn "Z1" "v2"
                         trackedZ1V1 (afterList "Z1" trackedZ1V1) v2 None
                         eq_refl))).
Defined.

(** ** More on the lifecycle handlers of the authorization *)

(** X4. An identifier that does not decode stops Read and Delete at once:
    the decoder's error is returned, no call is issued and the resource
    data is left as it was. *)
Theorem malformed_id_stops_handlers
    (meta : AWSClient) (st : HState) (zoneID vpcID : string) (e : error) :
  resourceAwsRoute53VPCAssociationAuthorizationParseId (Id (data st))
  = (zoneID, vpcID, Some e) ->
  resourceAwsRoute53CreateVPCAssociationAuthorizationRead meta st
  = Done (Some e, st) /\
  resourceAwsRoute53CreateVPCAssociationAuthorizationDelete meta st
  = Done (Some e, st).
Proof.
  intros HP. split.
  - unfold resourceAwsRoute53CreateVPCAssociationAuthorizationRead.
    unfold mbind at 1, M_bind at 1, getId. by rewrite HP.
  - unfold resourceAwsRoute53CreateVPCAssociationAuthorizationDelete.
    unfold mbind at 1, M_bind at 1, getId. by rewrite HP.
Qed.

Lemma malformed_id_stops_handlers_witness :
  resourceAwsRoute53CreateVPCAssociationAuthorizationRead
    (clientOf listingConn) trackedBadId
  = Done (Some (formatError "Z1:V1:x"), trackedBadId) /\
  resourceAwsRoute53CreateVPCAssociationAuthorizationDelete
    (clientOf listingConn) trackedBadId
  = Done (Some (formatError "Z1:V1:x"), trackedBadId).
Proof.
  exact (malformed_id_stops_handlers (clientOf listingConn) trackedBadId
           "" "" (formatError "Z1:V1:x") eq_refl).
Defined.

(** X5. Whether Delete succeeds is decided by the identifier alone: it
    returns nil exactly when the identifier is well formed, whatever the
    remote answers, and it never changes the resource data. *)
Theorem Delete_nil_iff_wellFormed (meta : AWSClient) (st : HState) :
  exists err st',
    resourceAwsRoute53CreateVPCAssociationAuthorizationDelete meta st
    = Done (err, st') /\
    data st' = data st /\
    (err = None <-> wellFormed (Id (data st))).
Proof.
  destruct (resourceAwsRoute53VPCAssociationAuthorizationParseId (Id (data st)))
    as [[z v] [e|]] eqn:HP.
  - exists (Some e), st. split; [|split; [done|split; [done|]]].
    + unfold resourceAwsRoute53CreateVPCAssociationAuthorizationDelete.
      unfold mbind at 1, M_bind at 1, getId. by rewrite HP.
    + intros HW. exfalso.
      apply wellFormed_Split in HW as (a & b & Ha & Hb & HS).
      unfold resourceAwsRoute53VPCAssociationAuthorizationParseId in HP.
      rewrite HS in HP.
      by rewrite (isEmpty_false a Ha), (isEmpty_false b Hb) in HP.
  - eexists None, _. split; [by apply (Delete_returns_nil meta st z v)|].
    split; [done|]. split; [|done]. intros _. exists z, v.
    by apply ParseId_ok_inv.
Qed.

Section MoreLifecycle.

(** Read once the lookup has found an entry. *)
Lemma Read_scanned meta st zoneID vpcID VPCs v :
  resourceAwsRoute53VPCAssociationAuthorizationParseId (Id (data st))
  = (zoneID, vpcID, None) ->
  Validate (r53conn meta) (listInput zoneID) = None ->
  ListVPCAssociationAuthorizations (r53conn meta) (listInput zoneID)
  = inr VPCs ->
  scanVPCs vpcID VPCs = Some v ->
  resourceAwsRoute53CreateVPCAssociationAuthorizationRead meta st
  = (SetPtr "vpc_id" (route53.VPCId v);;
     SetPtr "vpc_region" (route53.VPCRegion v);;
     Set_ "zone_id" zoneID;;
     mret None) (afterList zoneID st).
Proof.
  intros HP HV HL HS.
  unfold resourceAwsRoute53CreateVPCAssociationAuthorizationRead.
  unfold mbind at 1, M_bind at 1, getId. rewrite HP.
  unfold mbind at 1, M_bind at 1.
  rewrite (route53GetVPCAssociation_listed _ _ _ _ VPCs HV HL), HS.
  reflexivity.
Qed.

(** Create after a successful authorize call: the identifier is set and
    Read takes over. *)
Lemma Create_authorized meta st :
  CreateVPCAssociationAuthorization (r53conn meta)
    (createInput (attr (data st) "zone_id") (attr (data st) "vpc_id")
                 (attr (data st) "vpc_region") (region meta)) = None ->
  resourceAwsRoute53CreateVPCAssociationAuthorizationCreate meta st
  = resourceAwsRoute53CreateVPCAssociationAuthorizationRead meta
      (mkHState
         (mkResourceData
            (encodeId (attr (data st) "zone_id") (attr (data st) "vpc_id"))
            (attrs (data st)))
         (trace st ++
          [CallCreateVPCAssociationAuthorization
             (createInput (attr (data st) "zone_id") (attr (data st) "vpc_id")
                          (attr (data st) "vpc_region") (region meta))])).
Proof.
  intros HC.
  unfold resourceAwsRoute53CreateVPCAssociationAuthorizationCreate.
  unfold mbind at 1 2 3 4, M_bind at 1 2 3 4, Get, call.
  rewrite HC. unfold createInput.
  by destruct (isEmpty (attr (data st) "vpc_region")).
Qed.

Lemma ParseId_encodeId_ok a b :
  a <> EmptyString -> b <> EmptyString ->
  Count a colon = 0 -> Count b colon = 0 ->
  resourceAwsRoute53VPCAssociationAuthorizationParseId (encodeId a b)
  = (a, b, None).
Proof.
  intros Ha Hb Ca Cb.
  unfold resourceAwsRoute53VPCAssociationAuthorizationParseId, encodeId.
  rewrite (Split_app_sep a b colon Ca), (Split_no_sep b colon Cb).
  by rewrite (isEmpty_false a Ha), (isEmpty_false b Hb).
Qed.

Lemma ParseId_not_wellFormed id :
  ~ wellFormed id ->
  resourceAwsRoute53VPCAssociationAuthorizationParseId id
  = (EmptyString, EmptyString, Some (formatError id)).
Proof.
  intros Hnw.
  destruct (resourceAwsRoute53VPCAssociationAuthorizationParseId id)
    as [[a b] [e|]] eqn:E.
  - unfold resourceAwsRoute53VPCAssociationAuthorizationParseId in E.
    destruct (Split id colon) as [|p0 [|p1 [|p2 ps]]];
      try (by injection E as <- <- <-).
    destruct (isEmpty p0 || isEmpty p1);
      [by injection E as <- <- <-|discriminate].
  - exfalso. apply Hnw. exists a, b. by apply ParseId_ok_inv.
Qed.

Lemma matched_VPCId vpcID v :
  vpcID <> EmptyString -> vpcIdIs vpcID v -> route53.VPCId v = Some vpcID.
Proof.
  unfold vpcIdIs. destruct (route53.VPCId v) as [s|]; simpl.
  - by intros _ ->.
  - intros H E. by destruct H.
Qed.

End MoreLifecycle.

(** Read on a found authorization, in full. *)
Lemma Read_refreshes
    (meta : AWSClient) (st : HState) (zoneID vpcID : string)
    (pre post : list route53.VPC) (v : route53.VPC) :
  resourceAwsRoute53VPCAssociationAuthorizationParseId (Id (data st))
  = (zoneID, vpcID, None) ->
  Validate (r53conn meta) (listInput zoneID) = None ->
  ListVPCAssociationAuthorizations (r53conn meta) (listInput zoneID)
  = inr (pre ++ v :: post)%list ->
  Forall (fun u => ~ vpcIdIs vpcID u) pre ->
  vpcIdIs vpcID v ->
  exists st',
    resourceAwsRoute53CreateVPCAssociationAuthorizationRead meta st
    = Done (None, st') /\
    Id (data st') = Id (data st) /\
    trace st' = trace (afterList zoneID st) /\
    attr (data st') "zone_id" = zoneID /\
    attr (data st') "vpc_id" = vpcID /\
    (forall r, route53.VPCRegion v = Some r ->
               attr (data st') "vpc_region" = r) /\
    (forall key, key <> "zone_id" -> key <> "vpc_id" -> key <> "vpc_region" ->
                 attrs (data st') !! key = attrs (data st) !! key).
Proof.
  intros HP HV HL Hpre Hv.
  pose proof (ParseId_ok_inv _ _ _ HP) as (_ & Hne & _).
  rewrite (Read_scanned meta st zoneID vpcID _ v HP HV HL
             (scanVPCs_first vpcID pre v post Hpre Hv)).
  rewrite (matched_VPCId vpcID v Hne Hv).
  destruct (route53.VPCRegion v) as [r|]; eexists;
    (split; [reflexivity|]); simpl; unfold attr; simpl;
    repeat split; try intros r' [= <-]; try intros key H1 H2 H3;
    repeat (rewrite lookup_insert_eq
            || (rewrite lookup_insert_ne by congruence)
            || (rewrite lookup_delete_ne by congruence));
    reflexivity.
Qed.

(** X6. Read on a found authorization refreshes the attributes from the
    remote entry and the identifier: afterwards [zone_id] and [vpc_id]
    are the two halves of the identifier, [vpc_region] is the region the
    remote listed, every other attribute and the identifier are
    unchanged, and one list call was issued. *)
Theorem Read_found
    (meta : AWSClient) (st : HState) (zoneID vpcID : string)
    (pre post : list route53.VPC) (v : route53.VPC) :
  resourceAwsRoute53VPCAssociationAuthorizationParseId (Id (data st))
  = (zoneID, vpcID, None) ->
  Validate (r53conn meta) (listInput zoneID) = None ->
  ListVPCAssociationAuthorizations (r53conn meta) (listInput zoneID)
  = inr (pre ++ v :: post)%list ->
  Forall (fun u => ~ vpcIdIs vpcID u) pre ->
  vpcIdIs vpcID v ->
  exists st',
    resourceAwsRoute53CreateVPCAssociationAuthorizationRead meta st
    = Done (None, st') /\
    Id (data st') = Id (data st) /\
    trace st' = trace (afterList zoneID st) /\
    attr (data st') "zone_id" = zoneID /\
    attr (data st') "vpc_id" = vpcID /\
    (forall r, route53.VPCRegion v = Some r ->
               attr (data st') "vpc_region" = r) /\
    (forall key, key <> "zone_id" -> key <> "vpc_id" -> key <> "vpc_region" ->
                 attrs (data st') !! key = attrs (data st) !! key).
Proof.
  intros HP HV HL Hpre Hv.
  exact (Read_refreshes meta st zoneID vpcID pre post v HP HV HL Hpre Hv).
Qed.

Lemma Read_found_witness :
  exists st',
    resourceAwsRoute53CreateVPCAssociationAuthorizationRead
      (clientOf authorizedConn) trackedZ1V1 = Done (None, st') /\
    Id (data st') = "Z1:V1" /\
    attr (data st') "vpc_region" = "eu-west-1".
Proof.
  destruct (Read_found (clientOf authorizedConn) trackedZ1V1 "Z1" "V1"
              [] [] vpcV1 eq_refl eq_refl eq_refl (Forall_nil_2 _) eq_refl)
    as (st' & HR & HI & _ & _ & _ & Hr & _).
  exists st'. split; [exact HR|]. split; [exact HI|].
  exact (Hr "eu-west-1" eq_refl).
Defined.

(** X7. Read keeps the resource on a failure of the list call that is
    not "no such hosted zone": the error comes back wrapped with the VPC
    and the zone, after the one list call, and the resource data,
    identifier included, is left as it was. *)
Theorem Read_failure_keeps_resource
    (meta : AWSClient) (st : HState) (zoneID vpcID : string) (err : error) :
  resourceAwsRoute53VPCAssociationAuthorizationParseId (Id (data st))
  = (zoneID, vpcID, None) ->
  Validate (r53conn meta) (listInput zoneID) = None ->
  ListVPCAssociationAuthorizations (r53conn meta) (listInput zoneID)
  = inl err ->
  isAWSErr (Some err) route53.ErrCodeNoSuchHostedZone "" = false ->
  resourceAwsRoute53CreateVPCAssociationAuthorizationRead meta st
  = Done (Some (Errorf "error getting Route 53 VPC (%s) Association Authorization for Hosted Zone (%s): %s"
                  [ArgString vpcID; ArgString zoneID; ArgError err]),
          afterList zoneID st).
Proof.
  intros HP HV HL HA.
  unfold resourceAwsRoute53CreateVPCAssociationAuthorizationRead.
  unfold mbind at 1, M_bind at 1, getId. rewrite HP.
  unfold mbind at 1, M_bind at 1.
  rewrite (route53GetVPCAssociation_failed _ _ _ _ err HV HL).
  by rewrite HA.
Qed.

Lemma Read_failure_keeps_resource_witness :
  resourceAwsRoute53CreateVPCAssociationAuthorizationRead
    (clientOf timeoutConn) trackedZ1V1
  = Done (Some (Errorf "error getting Route 53 VPC (%s) Association Authorization for Hosted Zone (%s): %s"
                  [ArgString "V1"; ArgString "Z1";
                   ArgError (SdkError "timeout")]),
          afterList "Z1" trackedZ1V1).
Proof.
  exact (Read_failure_keeps_resource (clientOf timeoutConn) trackedZ1V1
           "Z1" "V1" (SdkError "timeout") eq_refl eq_refl eq_refl eq_refl).
Defined.

(** X8. What Read never does, whatever the identifier and the remote: it
    does not panic; it leaves the identifier as it was or empties it; it
    issues no call or one list call, never a create or a delete call;
    and when it returns an error the resource data is untouched. *)
Theorem Read_frame (meta : AWSClient) (st : HState) :
  exists err st',
    resourceAwsRoute53CreateVPCAssociationAuthorizationRead meta st
    = Done (err, st') /\
    (Id (data st') = Id (data st) \/ Id (data st') = EmptyString) /\
    (trace st' = trace st \/
     exists zoneID,
       trace st'
       = (trace st ++
          [CallListVPCAssociationAuthorizations (listInput zoneID)])%list) /\
    (err <> None -> data st' = data st).
Proof.
  unfold resourceAwsRoute53CreateVPCAssociationAuthorizationRead.
  unfold mbind at 1, M_bind at 1, getId.
  destruct (resourceAwsRoute53VPCAssociationAuthorizationParseId (Id (data st)))
    as [[z v] [e|]]; [frame_case|].
  unfold mbind at 1, M_bind at 1, route53GetVPCAssociation.
  destruct (Validate (r53conn meta) (listInput z)) as [e|]; [frame_case|].
  unfold mbind, M_bind, call.
  destruct (ListVPCAssociationAuthorizations (r53conn meta) (listInput z))
    as [e|VPCs]; unfold mret, M_ret; cbv beta iota.
  - destruct (isAWSErr (Some e) route53.ErrCodeNoSuchHostedZone "");
      frame_case.
  - destruct (scanVPCs v VPCs) as [u|]; [|frame_case].
    destruct (route53.VPCId u), (route53.VPCRegion u); frame_case.
Qed.

(** X9. Create from a configuration whose zone and VPC make a well-formed
    identifier, with the authorize call accepted and the authorization
    on the page the list call returns: Create succeeds, the identifier
    is [zone_id:vpc_id], the attributes are refreshed from the remote
    entry, and exactly two calls were issued, authorize then list. *)
Theorem Create_found
    (meta : AWSClient) (st : HState) (Z V : string)
    (pre post : list route53.VPC) (v : route53.VPC) :
  attr (data st) "zone_id" = Z -> attr (data st) "vpc_id" = V ->
  Z <> EmptyString -> V <> EmptyString ->
  Count Z colon = 0 -> Count V colon = 0 ->
  CreateVPCAssociationAuthorization (r53conn meta)
    (createInput Z V (attr (data st) "vpc_region") (region meta)) = None ->
  Validate (r53conn meta) (listInput Z) = None ->
  ListVPCAssociationAuthorizations (r53conn meta) (listInput Z)
  = inr (pre ++ v :: post)%list ->
  Forall (fun u => ~ vpcIdIs V u) pre ->
  vpcIdIs V v ->
  exists st',
    resourceAwsRoute53CreateVPCAssociationAuthorizationCreate meta st
    = Done (None, st') /\
    Id (data st') = encodeId Z V /\
    attr (data st') "zone_id" = Z /\
    attr (data st') "vpc_id" = V /\
    (forall r, route53.VPCRegion v = Some r ->
               attr (data st') "vpc_region" = r) /\
    trace st'
    = (trace st ++
       [CallCreateVPCAssociationAuthorization
          (createInput Z V (attr (data st) "vpc_region") (region meta));
        CallListVPCAssociationAuthorizations (listInput Z)])%list.
Proof.
  intros <- <- HZ HV CZ CV HC HVal HL Hpre Hv.
  rewrite (Create_authorized meta st HC).
  match goal with
  | |- context [resourceAwsRoute53CreateVPCAssociationAuthorizationRead meta ?s] =>
      destruct (Read_refreshes meta s (attr (data st) "zone_id")
                  (attr (data st) "vpc_id") pre post v
                  (ParseId_encodeId_ok _ _ HZ HV CZ CV) HVal HL Hpre Hv)
        as (st' & HR & HI & HT & Hz & Hvp & Hr & _)
  end.
  exists st'. split; [exact HR|]. split; [exact HI|].
  repeat split; try done.
  rewrite HT. simpl. by rewrite <- app_assoc.
Qed.

Lemma Create_found_witness :
  exists st',
    resourceAwsRoute53CreateVPCAssociationAuthorizationCreate
      (clientOf authorizedConn) scenarioA = Done (None, st') /\
    Id (data st') = "Z1:V1" /\
    attr (data st') "vpc_region" = "eu-west-1".
Proof.
  destruct (Create_found (clientOf authorizedConn) scenarioA "Z1" "V1"
              [] [] vpcV1 eq_refl eq_refl) as (st' & HC & HI & _ & _ & Hr & _);
    [discriminate | discriminate | reflexivity | reflexivity | reflexivity
    | reflexivity | reflexivity | constructor | reflexivity |].
  exists st'. split; [exact HC|]. split; [exact HI|].
  exact (Hr "eu-west-1" eq_refl).
Defined.

(** X10. Create does not check that the identifier it stores can be decoded.
    When the configured zone and VPC do not make a well-formed
    identifier (one of them is empty or holds a colon) and the authorize
    call is accepted, the authorization exists remotely, the identifier
    is stored, no list call follows and Create returns the format
    error. *)
Theorem Create_stores_undecodable_id (meta : AWSClient) (st : HState) :
  ~ wellFormed (encodeId (attr (data st) "zone_id") (attr (data st) "vpc_id")) ->
  CreateVPCAssociationAuthorization (r53conn meta)
    (createInput (attr (data st) "zone_id") (attr (data st) "vpc_id")
                 (attr (data st) "vpc_region") (region meta)) = None ->
  resourceAwsRoute53CreateVPCAssociationAuthorizationCreate meta st
  = Done (Some (formatError
                  (encodeId (attr (data st) "zone_id")
                            (attr (data st) "vpc_id"))),
          mkHState
            (mkResourceData
               (encodeId (attr (data st) "zone_id") (attr (data st) "vpc_id"))
               (attrs (data st)))
            (trace st ++
             [CallCreateVPCAssociationAuthorization
                (createInput (attr (data st) "zone_id")
                   (attr (data st) "vpc_id")
                   (attr (data st) "vpc_region") (region meta))])).
Proof.
  intros Hnw HC. rewrite (Create_authorized meta st HC).
  unfold resourceAwsRoute53CreateVPCAssociationAuthorizationRead.
  unfold mbind at 1, M_bind at 1, getId. simpl.
  by rewrite (ParseId_not_wellFormed _ Hnw).
Qed.

Lemma Create_stores_undecodable_id_witness :
  ~ wellFormed "Z1:vpc:1" /\
  resourceAwsRoute53CreateVPCAssociationAuthorizationCreate
    (clientOf authorizedConn) scenarioColon
  = Done (Some (formatError "Z1:vpc:1"),
          mkHState (mkResourceData "Z1:vpc:1" (attrs (data scenarioColon)))
            [CallCreateVPCAssociationAuthorization
               (route53.mkCreateInput (Some "Z1")
                  (Some (route53.mkVPC (Some "vpc:1") (Some "us-east-1"))))]).
Proof.
  assert (Hnw : ~ wellFormed "Z1:vpc:1").
  { intros H. apply wellFormed_Split in H as (a & b & _ & _ & E).
    vm_compute in E. discriminate. }
  split; [exact Hnw|].
  exact (Create_stores_undecodable_id (clientOf authorizedConn) scenarioColon
           Hnw eq_refl).
Defined.

(** X11. Create trusts the first page.  When the authorize call is accepted
    but the remote then reports the authorization as absent (its zone
    gone, or its entry not on the page the list call returns), Create
    returns no error and leaves the identifier empty: the authorization
    exists remotely and is not tracked. *)
Theorem Create_untracked_when_unlisted
    (meta : AWSClient) (st : HState) (Z V : string) :
  attr (data st) "zone_id" = Z -> attr (data st) "vpc_id" = V ->
  Z <> EmptyString -> V <> EmptyString ->
  Count Z colon = 0 -> Count V colon = 0 ->
  CreateVPCAssociationAuthorization (r53conn meta)
    (createInput Z V (attr (data st) "vpc_region") (region meta)) = None ->
  remoteAbsent (r53conn meta) Z V ->
  resourceAwsRoute53CreateVPCAssociationAuthorizationCreate meta st
  = Done (None,
          mkHState (cleared (data st))
            (trace st ++
             [CallCreateVPCAssociationAuthorization
                (createInput Z V (attr (data st) "vpc_region") (region meta));
              CallListVPCAssociationAuthorizations (listInput Z)])).
Proof.
  intros <- <- HZ HV CZ CV HC HA.
  rewrite (Create_authorized meta st HC).
  match goal with
  | |- context [resourceAwsRoute53CreateVPCAssociationAuthorizationRead meta ?s] =>
      rewrite (Read_absent meta s _ _ (ParseId_encodeId_ok _ _ HZ HV CZ CV) HA)
  end.
  simpl. unfold cleared. simpl. by rewrite <- app_assoc.
Qed.

Lemma Create_untracked_when_unlisted_witness :
  resourceAwsRoute53CreateVPCAssociationAuthorizationCreate
    (clientOf emptyConn) scenarioA
  = Done (None,
          mkHState (cleared (data scenarioA))
            [CallCreateVPCAssociationAuthorization
               (route53.mkCreateInput (Some "Z1")
                  (Some (route53.mkVPC (Some "V1") (Some "us-east-1"))));
             CallListVPCAssociationAuthorizations (listInput "Z1")]).
Proof.
  apply (Create_untracked_when_unlisted (clientOf emptyConn) scenarioA
           "Z1" "V1");
    [reflexivity | reflexivity | discriminate | discriminate | reflexivity
    | reflexivity | reflexivity |].
  split; [reflexivity|]. right. exists []. split; [reflexivity|constructor].
Defined.

(** X12. Create and Delete compose: Delete on the state a successful Create
    leaves issues one deauthorize call for the configured zone and VPC,
    with the region the remote listed for the authorization (not the
    configured or the client's region), and returns nil. *)
Theorem Create_then_Delete
    (meta meta' : AWSClient) (st : HState) (Z V r : string)
    (pre post : list route53.VPC) (v : route53.VPC) :
  attr (data st) "zone_id" = Z -> attr (data st) "vpc_id" = V ->
  Z <> EmptyString -> V <> EmptyString ->
  Count Z colon = 0 -> Count V colon = 0 ->
  CreateVPCAssociationAuthorization (r53conn meta)
    (createInput Z V (attr (data st) "vpc_region") (region meta)) = None ->
  Validate (r53conn meta) (listInput Z) = None ->
  ListVPCAssociationAuthorizations (r53conn meta) (listInput Z)
  = inr (pre ++ v :: post)%list ->
  Forall (fun u => ~ vpcIdIs V u) pre ->
  vpcIdIs V v ->
  route53.VPCRegion v = Some r ->
  exists st',
    resourceAwsRoute53CreateVPCAssociationAuthorizationCreate meta st
    = Done (None, st') /\
    resourceAwsRoute53CreateVPCAssociationAuthorizationDelete meta' st'
    = Done (None,
            mkHState (data st')
              (trace st' ++
               [CallDeleteVPCAssociationAuthorization
                  (route53.mkDeleteInput (Some Z)
                     (Some (route53.mkVPC (Some V) (Some r))))])).
Proof.
  intros <- <- HZ HV CZ CV HC HVal HL Hpre Hv Hr.
  rewrite (Create_authorized meta st HC).
  match goal with
  | |- context [resourceAwsRoute53CreateVPCAssociationAuthorizationRead meta ?s] =>
      destruct (Read_refreshes meta s (attr (data st) "zone_id")
                  (attr (data st) "vpc_id") pre post v
                  (ParseId_encodeId_ok _ _ HZ HV CZ CV) HVal HL Hpre Hv)
        as (st' & HR & HI & _ & _ & _ & Hreg & _)
  end.
  exists st'. split; [exact HR|].
  rewrite (Delete_returns_nil meta' st' (attr (data st) "zone_id")
             (attr (data st) "vpc_id")).
  - by rewrite (Hreg r Hr).
  - rewrite HI. simpl. by apply ParseId_encodeId_ok.
Qed.

Lemma Create_then_Delete_witness :
  exists st',
    resourceAwsRoute53CreateVPCAssociationAuthorizationCreate
      (clientOf authorizedConn) scenarioA = Done (None, st') /\
    resourceAwsRoute53CreateVPCAssociationAuthorizationDelete
      (clientOf refusingConn) st'
    = Done (None,
            mkHState (data st')
              (trace st' ++
               [CallDeleteVPCAssociationAuthorization
                  (route53.mkDeleteInput (Some "Z1")
                     (Some (route53.mkVPC (Some "V1") (Some "eu-west-1"))))])).
Proof.
  apply (Create_then_Delete (clientOf authorizedConn) (clientOf refusingConn)
           scenarioA "Z1" "V1" "eu-west-1" [] [] vpcV1);
    [reflexivity | reflexivity | discriminate | discriminate | reflexivity
    | reflexivity | reflexivity | reflexivity | reflexivity | constructor
    | reflexivity | reflexivity].
Defined.

(** ** More on flatten and expand *)

Section MoreFlattenExpand.

Lemma Int64Value_leaf v :
  aws.Int64Value
    match v with
    | VInt val => if (val =? 0)%Z then None else Some val
    | _ => None
    end = leafInt v.
Proof.
  destruct v as [| |n| | | |]; try reflexivity.
  simpl. by destruct (Z.eqb_spec n 0) as [->|].
Qed.

Lemma StringValue_leaf v :
  aws.StringValue
    match v with
    | VString val => if (0 <? String.length val)%nat then Some val else None
    | _ => None
    end = leafString v.
Proof. destruct v as [|s| | | | |]; try reflexivity. by destruct s. Qed.

Lemma StringValue_nonempty s :
  aws.StringValue (if (0 <? String.length s)%nat then Some s else None) = s.
Proof. by destruct s. Qed.

Lemma expand_any_block p val others arn mtp :
  index p "auto_scaling_group_arn" = VString arn ->
  index p "managed_termination_protection" = VString mtp ->
  index p "managed_scaling" = VList val ->
  expandAutoScalingGroupProvider (VList (VMap p :: others))
  = Done (Some (ecs.mkAutoScalingGroupProvider (Some arn)
                  match val with
                  | VMap ms :: _ => Some (expandManagedScaling ms)
                  | _ => None
                  end
                  (if (0 <? String.length mtp)%nat then Some mtp else None))).
Proof.
  intros Harn Hmtp Hms. unfold expandAutoScalingGroupProvider. simpl.
  rewrite Harn. simpl. rewrite Hmtp. simpl. by rewrite Hms.
Qed.

End MoreFlattenExpand.

(** X13. Expand returns exactly on a non-empty list whose first element is a
    map that holds a string under [auto_scaling_group_arn], a string
    under [managed_termination_protection] and a list under
    [managed_scaling]; on every other tree (an empty list, a missing
    key, another dynamic type) it panics. *)
Theorem expand_returns_iff (configured : Value) :
  expandAutoScalingGroupProvider configured <> Panic <->
  exists p others arn mtp val,
    configured = VList (VMap p :: others) /\
    index p "auto_scaling_group_arn" = VString arn /\
    index p "managed_termination_protection" = VString mtp /\
    index p "managed_scaling" = VList val.
Proof.
  split.
  - unfold expandAutoScalingGroupProvider.
    destruct configured as [| | | |l| |]; try done.
    destruct l as [|p0 others]; [done|].
    destruct p0 as [| | | | |p|]; try done. simpl.
    destruct (index p "auto_scaling_group_arn") as [|arn| | | | |] eqn:Ea;
      try done. simpl.
    destruct (index p "managed_termination_protection")
      as [|mtp| | | | |] eqn:Em; try done. simpl.
    destruct (index p "managed_scaling") as [| | | |val| |] eqn:Es;
      try done.
    intros _. by exists p, others, arn, mtp, val.
  - intros (p & others & arn & mtp & val & -> & Ha & Hm & Hs).
    by rewrite (expand_any_block p val others arn mtp Ha Hm Hs).
Qed.

Lemma expand_returns_iff_witness :
  expandAutoScalingGroupProvider statusOnly <> Panic /\
  ~ (exists p others arn mtp val,
       VList [] = VList (VMap p :: others) /\
       index p "auto_scaling_group_arn" = VString arn /\
       index p "managed_termination_protection" = VString mtp /\
       index p "managed_scaling" = VList val).
Proof.
  split.
  - apply (proj2 (expand_returns_iff statusOnly)).
    eexists _, _, _, _, _. split; [reflexivity|]. by repeat split.
  - intros H. by apply (proj2 (expand_returns_iff (VList []))) in H.
Defined.

(** X14. A configuration without a managed scaling cannot be read back: when
    the [managed_scaling] list is empty or does not start with a map,
    expand returns a provider whose [ManagedScaling] is nil, and flatten
    panics on that very provider. *)
Theorem expand_without_block_flatten_panics
    (p : gmap string Value) (others val : list Value) (arn mtp : string) :
  index p "auto_scaling_group_arn" = VString arn ->
  index p "managed_termination_protection" = VString mtp ->
  index p "managed_scaling" = VList val ->
  (forall ms rest, val <> VMap ms :: rest) ->
  exists prov,
    expandAutoScalingGroupProvider (VList (VMap p :: others))
    = Done (Some prov) /\
    ecs.AutoScalingGroupArn prov = Some arn /\
    ecs.ManagedScaling_ prov = None /\
    flattenAutoScalingGroupProvider (Some prov) = Panic.
Proof.
  intros Ha Hm Hs Hval.
  rewrite (expand_any_block p val others arn mtp Ha Hm Hs).
  eexists. split; [reflexivity|].
  destruct val as [|[| | | | |ms|] rest]; try done.
  by destruct (Hval ms rest).
Qed.

Lemma expand_without_block_flatten_panics_witness :
  exists prov,
    expandAutoScalingGroupProvider noManagedScaling = Done (Some prov) /\
    ecs.AutoScalingGroupArn prov = Some "arn:aws:autoscaling:asg/x" /\
    ecs.ManagedScaling_ prov = None /\
    flattenAutoScalingGroupProvider (Some prov) = Panic.
Proof.
  apply (expand_without_block_flatten_panics bareBlock [] []
           "arn:aws:autoscaling:asg/x" ""); [reflexivity..|].
  intros ms rest. discriminate.
Defined.

(** X15. Flatten after expand gives the configuration back.  For a block
    with a managed scaling, the tree flatten builds from the expanded
    request holds the configured ARN and termination protection and the
    four leaves with their configured values, as [int64] and as a list
    of maps; a leaf that expand omitted comes back as the zero value it
    was omitted for. *)
Theorem flatten_expand_roundtrip
    (p ms : gmap string Value) (others rest : list Value) (arn mtp : string) :
  index p "auto_scaling_group_arn" = VString arn ->
  index p "managed_termination_protection" = VString mtp ->
  index p "managed_scaling" = VList (VMap ms :: rest) ->
  exists prov,
    expandAutoScalingGroupProvider (VList (VMap p :: others))
    = Done (Some prov) /\
    flattenAutoScalingGroupProvider (Some prov)
    = Done [flatTree arn mtp
              (leafInt (index ms "maximum_scaling_step_size"))
              (leafInt (index ms "minimum_scaling_step_size"))
              (leafString (index ms "status"))
              (leafInt (index ms "target_capacity"))].
Proof.
  intros Ha Hm Hs.
  rewrite (expand_any_block p _ others arn mtp Ha Hm Hs).
  eexists. split; [reflexivity|].
  unfold flattenAutoScalingGroupProvider, flatTree. simpl.
  rewrite expandManagedScaling_TargetCapacity,
    expandManagedScaling_MaximumScalingStepSize,
    expandManagedScaling_MinimumScalingStepSize,
    expandManagedScaling_Status.
  by rewrite !Int64Value_leaf, StringValue_leaf, StringValue_nonempty.
Qed.

Lemma flatten_expand_roundtrip_witness :
  exists prov,
    expandAutoScalingGroupProvider (VList [VMap fullBlock]) = Done (Some prov) /\
    flattenAutoScalingGroupProvider (Some prov)
    = Done [flatTree "arn:aws:autoscaling:asg/x" "ENABLED" 100 1 "ENABLED" 75].
Proof.
  exact (flatten_expand_roundtrip fullBlock fullScaling [] []
           "arn:aws:autoscaling:asg/x" "ENABLED" eq_refl eq_refl eq_refl).
Defined.

(** ** The create and read handlers of the capacity provider *)

Section EcsHandlers.

Lemma scanProviders_first id pre cp post :
  Forall (fun u => ~ arnIs id u) pre ->
  arnIs id cp ->
  scanProviders id (pre ++ cp :: post)%list = Some cp.
Proof.
  intros Hpre Hcp. induction Hpre as [|u pre Hu _ IH]; simpl.
  - unfold arnIs in Hcp. rewrite Hcp. by rewrite String.eqb_refl.
  - destruct (String.eqb_spec (aws.StringValue (ecsapi.CapacityProviderArn u)) id)
      as [E|_]; [|exact IH].
    exfalso. by apply Hu.
Qed.

Lemma scanProviders_none id cps :
  Forall (fun u => ~ arnIs id u) cps -> scanProviders id cps = None.
Proof.
  induction 1 as [|u l Hu _ IH]; simpl; [reflexivity|].
  destruct (String.eqb_spec (aws.StringValue (ecsapi.CapacityProviderArn u)) id)
    as [E|_]; [|exact IH].
  exfalso. by apply Hu.
Qed.

(** Read once the describe call has answered with a list. *)
Lemma EcsRead_described fw conn st cps :
  DescribeCapacityProviders conn (describeInput (EcsId (ecsData st)))
  = inr cps ->
  resourceAwsEcsCapacityProviderRead fw conn st
  = match scanProviders (EcsId (ecsData st)) cps with
    | None => (ecsSetId "";; mret None) (afterDescribe (EcsId (ecsData st)) st)
    | Some provider =>
        (ecsSetPtr "arn" (ecsapi.CapacityProviderArn provider);;
         ecsSetPtr "name" (ecsapi.Name provider);;
         err ← ecsSet fw "tags"
                 (VMap (VString <$> TagsMap fw (ecsapi.Tags provider)));
         match err with
         | Some e =>
             mret (Some (Errorf "error setting tags: %s" [ArgError e]))
         | None =>
             flattened ← lift (flattenAutoScalingGroupProvider
                                 (ecsapi.AutoScalingGroupProvider provider));
             err ← ecsSet fw "auto_scaling_group_provider" (VMapList flattened);
             match err with
             | Some e =>
                 mret (Some (Errorf "error setting autoscaling group provider: %s"
                               [ArgError e]))
             | None => mret None
             end
         end) (afterDescribe (EcsId (ecsData st)) st)
    end.
Proof.
  intros HD. unfold resourceAwsEcsCapacityProviderRead.
  unfold mbind at 1 2, ME_bind at 1 2, ecsGetId, ecsCall. rewrite HD.
  unfold mbind at 1, ME_bind at 1. simpl.
  by destruct (scanProviders (EcsId (ecsData st)) cps).
Qed.

End EcsHandlers.

(** X16. Not found on read: when the describe call answers with a list in
    which no provider has the identifier as its ARN, Read empties the
    identifier, leaves the attributes alone and returns no error, after
    that one call. *)
Theorem EcsRead_not_found
    (fw : Framework) (conn : ECS) (st : EcsState)
    (cps : list ecsapi.CapacityProvider) :
  DescribeCapacityProviders conn (describeInput (EcsId (ecsData st)))
  = inr cps ->
  Forall (fun cp => ~ arnIs (EcsId (ecsData st)) cp) cps ->
  resourceAwsEcsCapacityProviderRead fw conn st
  = Done (None,
          mkEcsState (mkEcsResourceData EmptyString (ecsAttrs (ecsData st)))
            (ecsTrace (afterDescribe (EcsId (ecsData st)) st))).
Proof.
  intros HD Hnone.
  by rewrite (EcsRead_described fw conn st cps HD), scanProviders_none.
Qed.

Lemma EcsRead_not_found_witness :
  resourceAwsEcsCapacityProviderRead plainFramework (ecsConnOf [])
    ecsTrackedCp1
  = Done (None,
          mkEcsState (mkEcsResourceData EmptyString
                        (ecsAttrs (ecsData ecsTrackedCp1)))
            [CallDescribeCapacityProviders (describeInput cp1Arn)]).
Proof.
  exact (EcsRead_not_found plainFramework (ecsConnOf []) ecsTrackedCp1 []
           eq_refl (Forall_nil_2 _)).
Defined.

(** X18. Read panics on a provider without a managed scaling: when the
    described provider that matches the identifier carries an
    auto-scaling-group provider whose [ManagedScaling] is nil, and the
    tags were written without error, the nil dereference in flatten
    takes the whole handler down. *)
Theorem EcsRead_panics_without_managed_scaling
    (fw : Framework) (conn : ECS) (st : EcsState)
    (pre post : list ecsapi.CapacityProvider) (cp : ecsapi.CapacityProvider)
    (prov : ecs.AutoScalingGroupProvider) (stored : Value) :
  DescribeCapacityProviders conn (describeInput (EcsId (ecsData st)))
  = inr (pre ++ cp :: post)%list ->
  Forall (fun u => ~ arnIs (EcsId (ecsData st)) u) pre ->
  arnIs (EcsId (ecsData st)) cp ->
  Write fw "tags" (VMap (VString <$> TagsMap fw (ecsapi.Tags cp)))
  = inr stored ->
  ecsapi.AutoScalingGroupProvider cp = Some prov ->
  ecs.ManagedScaling_ prov = None ->
  resourceAwsEcsCapacityProviderRead fw conn st = Panic.
Proof.
  intros HD Hpre Hcp HW HP HM.
  rewrite (EcsRead_described fw conn st _ HD),
    (scanProviders_first _ pre cp post Hpre Hcp).
  unfold mbind, ME_bind, ecsSetPtr, ecsSet. simpl. rewrite HW. simpl.
  unfold lift, flattenAutoScalingGroupProvider. by rewrite HP, HM.
Qed.

Lemma EcsRead_panics_without_managed_scaling_witness :
  resourceAwsEcsCapacityProviderRead plainFramework (ecsConnOf [cp1Bare])
    ecsTrackedCp1 = Panic.
Proof.
  exact (EcsRead_panics_without_managed_scaling plainFramework
           (ecsConnOf [cp1Bare]) ecsTrackedCp1 [] [] cp1Bare _ _
           eq_refl (Forall_nil_2 _) eq_refl eq_refl eq_refl eq_refl).
Defined.

Section EcsCreate.

Lemma isZero_VMap (m : gmap string Value) :
  isZero (VMap m) = if decide (m = ∅) then true else false.
Proof.
  simpl. destruct (decide (m = ∅)) as [->|Hne].
  - by rewrite map_to_list_empty.
  - destruct (map_to_list m) eqn:E; [|done].
    by apply map_to_list_empty_iff in E.
Qed.

Lemma createTags_run fw st :
  ecsAttrs (ecsData st) !! "tags" = None \/
  (exists m, ecsAttrs (ecsData st) !! "tags" = Some (VMap m)) ->
  createTags fw st = Done (requestTags fw (ecsData st), st).
Proof.
  unfold createTags, requestTags, mbind, ME_bind, ecsGetOk.
  intros [-> | [m ->]]; [reflexivity|].
  rewrite isZero_VMap. by destruct (decide (m = ∅)).
Qed.

(** Create up to the answer of the create call. *)
Lemma EcsCreate_called fw conn st name prov :
  ecsAttrs (ecsData st) !! "tags" = None \/
  (exists m, ecsAttrs (ecsData st) !! "tags" = Some (VMap m)) ->
  ecsAttr (ecsData st) "name" = VString name ->
  expandAutoScalingGroupProvider
    (ecsAttr (ecsData st) "auto_scaling_group_provider") = Done prov ->
  resourceAwsEcsCapacityProviderCreate fw conn st
  = match CreateCapacityProvider conn
            (createRequest fw (ecsData st) name prov) with
    | inl err =>
        Done (Some (Errorf "error creating capacity provider: %s"
                      [ArgError err]),
              afterCreate (createRequest fw (ecsData st) name prov) st)
    | inr out =>
        match ecsapi.CreatedCapacityProvider out with
        | None => Panic
        | Some provider =>
            resourceAwsEcsCapacityProviderRead fw conn
              (mkEcsState
                 (mkEcsResourceData
                    (aws.StringValue (ecsapi.CapacityProviderArn provider))
                    (ecsAttrs (ecsData st)))
                 (ecsTrace
                    (afterCreate (createRequest fw (ecsData st) name prov) st)))
        end
    end.
Proof.
  intros HT HN HE. unfold resourceAwsEcsCapacityProviderCreate.
  unfold mbind at 1, ME_bind at 1. rewrite (createTags_run fw st HT).
  unfold mbind at 1 2 3 4 5, ME_bind at 1 2 3 4 5, ecsGet, ecsCall.
  fold (ecsAttr (ecsData st) "name"). rewrite HN. simpl lift.
  cbv beta iota.
  fold (ecsAttr (ecsData st) "auto_scaling_group_provider"). rewrite HE.
  simpl lift. cbv beta iota. fold (createRequest fw (ecsData st) name prov).
  destruct (CreateCapacityProvider conn
              (createRequest fw (ecsData st) name prov)) as [err|out];
    [reflexivity|].
  by destruct (ecsapi.CreatedCapacityProvider out).
Qed.

End EcsCreate.

(** X17. Read on a found provider: when the first described provider with
    the identifier as its ARN flattens without panic and the writer
    accepts the tags and the flattened block, Read returns no error,
    keeps the identifier, stores the ARN, the name, the tags and the
    block, leaves the other attributes alone and has issued the one
    describe call. *)
Theorem EcsRead_found
    (fw : Framework) (conn : ECS) (st : EcsState)
    (pre post : list ecsapi.CapacityProvider) (cp : ecsapi.CapacityProvider)
    (flattened : list (gmap string Value)) (tags block : Value) :
  DescribeCapacityProviders conn (describeInput (EcsId (ecsData st)))
  = inr (pre ++ cp :: post)%list ->
  Forall (fun u => ~ arnIs (EcsId (ecsData st)) u) pre ->
  ecsapi.CapacityProviderArn cp = Some (EcsId (ecsData st)) ->
  Write fw "tags" (VMap (VString <$> TagsMap fw (ecsapi.Tags cp)))
  = inr tags ->
  flattenAutoScalingGroupProvider (ecsapi.AutoScalingGroupProvider cp)
  = Done flattened ->
  Write fw "auto_scaling_group_provider" (VMapList flattened) = inr block ->
  exists st',
    resourceAwsEcsCapacityProviderRead fw conn st = Done (None, st') /\
    EcsId (ecsData st') = EcsId (ecsData st) /\
    ecsTrace st' = ecsTrace (afterDescribe (EcsId (ecsData st)) st) /\
    ecsAttrs (ecsData st') !! "arn" = Some (VString (EcsId (ecsData st))) /\
    ecsAttrs (ecsData st') !! "name" = VString <$> ecsapi.Name cp /\
    ecsAttrs (ecsData st') !! "tags" = Some tags /\
    ecsAttrs (ecsData st') !! "auto_scaling_group_provider" = Some block /\
    (forall key,
       key <> "arn" -> key <> "name" -> key <> "tags" ->
       key <> "auto_scaling_group_provider" ->
       ecsAttrs (ecsData st') !! key = ecsAttrs (ecsData st) !! key).
Proof.
  intros HD Hpre Harn HWt HF HWb.
  assert (Hcp : arnIs (EcsId (ecsData st)) cp) by (unfold arnIs; by rewrite Harn).
  rewrite (EcsRead_described fw conn st _ HD),
    (scanProviders_first _ pre cp post Hpre Hcp).
  unfold mbind, ME_bind, ecsSetPtr, ecsSet. simpl. rewrite HWt. simpl.
  rewrite HF. simpl. rewrite HWb, Harn.
  destruct (ecsapi.Name cp) as [n|]; eexists;
    (split; [reflexivity|]); simpl;
    repeat split; try intros key H1 H2 H3 H4;
    repeat (rewrite lookup_insert_eq
            || (rewrite lookup_insert_ne by congruence)
            || rewrite lookup_delete_eq
            || (rewrite lookup_delete_ne by congruence));
    reflexivity.
Qed.

Lemma EcsRead_found_witness :
  exists st',
    resourceAwsEcsCapacityProviderRead plainFramework (ecsConnOf [cp1Scaled])
      ecsTrackedCp1 = Done (None, st') /\
    EcsId (ecsData st') = cp1Arn /\
    ecsAttrs (ecsData st') !! "arn" = Some (VString cp1Arn).
Proof.
  destruct (EcsRead_found plainFramework (ecsConnOf [cp1Scaled]) ecsTrackedCp1
              [] [] cp1Scaled _ _ _
              eq_refl (Forall_nil_2 _) eq_refl eq_refl eq_refl eq_refl)
    as (st' & HR & HI & _ & HA & _).
  exists st'. by repeat split.
Defined.

(** X20. The create request carries no tags unless some are configured: with
    [tags] unset or set to the empty map the tag helper is not consulted
    and the request's tags are nil; with a non-empty map they are what
    the helper makes of it.  The resource data is not touched. *)
Theorem createTags_omits_empty (fw : Framework) (st : EcsState) :
  (ecsAttrs (ecsData st) !! "tags" = None \/
   ecsAttrs (ecsData st) !! "tags" = Some (VMap ∅) ->
   createTags fw st = Done ([], st)) /\
  (forall m,
     ecsAttrs (ecsData st) !! "tags" = Some (VMap m) -> m <> ∅ ->
     createTags fw st = Done (EcsTags fw m, st)).
Proof.
  split.
  - intros H. rewrite createTags_run.
    + unfold requestTags. destruct H as [-> | ->]; [done|].
      by destruct (decide ((∅ : gmap string Value) = ∅)).
    + destruct H as [H|H]; [by left|right; by eexists].
  - intros m H Hne. rewrite createTags_run; [|right; by eexists].
    unfold requestTags. rewrite H. by destruct (decide (m = ∅)).
Qed.

Lemma createTags_omits_empty_witness :
  createTags plainFramework ecsConfiguredCp1 = Done ([], ecsConfiguredCp1) /\
  createTags taggingFramework ecsTaggedCp1 = Done ([teamTag], ecsTaggedCp1).
Proof.
  split.
  - apply (proj1 (createTags_omits_empty plainFramework ecsConfiguredCp1)).
    by left.
  - refine (proj2 (createTags_omits_empty taggingFramework ecsTaggedCp1)
              (<["team" := VString "infra"]> ∅) eq_refl _).
    intros E. apply (f_equal (fun m => m !! "team")) in E.
    by rewrite lookup_insert_eq in E.
Defined.

(** X21. Create, step by step.  With a string [name], a block that expands
    and [tags] unset or a map, Create issues one create call for the
    name, the expanded provider and the configured tags.  When the call
    fails its error is returned wrapped and the identifier is left
    alone; when it answers with a provider the identifier becomes that
    provider's ARN and the handler continues as Read; when it answers
    without a provider the handler panics. *)
Theorem EcsCreate_steps
    (fw : Framework) (conn : ECS) (st : EcsState) (name : string)
    (prov : option ecs.AutoScalingGroupProvider) :
  ecsAttrs (ecsData st) !! "tags" = None \/
  (exists m, ecsAttrs (ecsData st) !! "tags" = Some (VMap m)) ->
  ecsAttr (ecsData st) "name" = VString name ->
  expandAutoScalingGroupProvider
    (ecsAttr (ecsData st) "auto_scaling_group_provider") = Done prov ->
  (forall err,
     CreateCapacityProvider conn (createRequest fw (ecsData st) name prov)
     = inl err ->
     resourceAwsEcsCapacityProviderCreate fw conn st
     = Done (Some (Errorf "error creating capacity provider: %s"
                     [ArgError err]),
             afterCreate (createRequest fw (ecsData st) name prov) st)) /\
  (forall provider,
     CreateCapacityProvider conn (createRequest fw (ecsData st) name prov)
     = inr (ecsapi.mkCreateOutput (Some provider)) ->
     resourceAwsEcsCapacityProviderCreate fw conn st
     = resourceAwsEcsCapacityProviderRead fw conn
         (mkEcsState
            (mkEcsResourceData
               (aws.StringValue (ecsapi.CapacityProviderArn provider))
               (ecsAttrs (ecsData st)))
            (ecsTrace
               (afterCreate (createRequest fw (ecsData st) name prov) st)))) /\
  (CreateCapacityProvider conn (createRequest fw (ecsData st) name prov)
   = inr (ecsapi.mkCreateOutput None) ->
   resourceAwsEcsCapacityProviderCreate fw conn st = Panic).
Proof.
  intros HT HN HE.
  rewrite (EcsCreate_called fw conn st name prov HT HN HE).
  repeat split.
  - by intros err ->.
  - by intros provider ->.
  - by intros ->.
Qed.

Lemma EcsCreate_steps_witness :
  resourceAwsEcsCapacityProviderCreate plainFramework (ecsConnOf [])
    ecsConfiguredCp1
  = resourceAwsEcsCapacityProviderRead plainFramework (ecsConnOf [])
      (mkEcsState
         (mkEcsResourceData cp1Arn (ecsAttrs (ecsData ecsConfiguredCp1)))
         [CallCreateCapacityProvider
            (ecsapi.mkCreateInput
               (Some (ecs.mkAutoScalingGroupProvider
                        (Some "arn:aws:autoscaling:asg/x") None None))
               (Some "cp1") [])]).
Proof.
  refine (proj1 (proj2 (EcsCreate_steps plainFramework (ecsConnOf [])
                          ecsConfiguredCp1 "cp1" _ _ eq_refl eq_refl))
            cp1Bare eq_refl).
  by left.
Defined.

(** X22. Creating a provider without a managed scaling ends in a panic
    after the remote has created it.  When the configured block expands
    to a provider whose [ManagedScaling] is nil and the create call
    answers with a provider, Create is Read run on the state in which
    the create call is on the trace and the identifier is the new
    provider's ARN (and so it is for every client that answers the
    create call that way); when the describe call then shows that
    provider with the auto-scaling-group provider that was sent, that
    Read panics. *)
Theorem EcsCreate_panics_without_managed_scaling
    (fw : Framework) (conn : ECS) (st : EcsState) (name : string)
    (prov : ecs.AutoScalingGroupProvider)
    (created cp : ecsapi.CapacityProvider)
    (pre post : list ecsapi.CapacityProvider) (stored : Value) :
  ecsAttrs (ecsData st) !! "tags" = None \/
  (exists m, ecsAttrs (ecsData st) !! "tags" = Some (VMap m)) ->
  ecsAttr (ecsData st) "name" = VString name ->
  expandAutoScalingGroupProvider
    (ecsAttr (ecsData st) "auto_scaling_group_provider") = Done (Some prov) ->
  ecs.ManagedScaling_ prov = None ->
  CreateCapacityProvider conn
    (createRequest fw (ecsData st) name (Some prov))
  = inr (ecsapi.mkCreateOutput (Some created)) ->
  DescribeCapacityProviders conn
    (describeInput (aws.StringValue (ecsapi.CapacityProviderArn created)))
  = inr (pre ++ cp :: post)%list ->
  Forall (fun u => ~ arnIs (aws.StringValue
                              (ecsapi.CapacityProviderArn created)) u) pre ->
  arnIs (aws.StringValue (ecsapi.CapacityProviderArn created)) cp ->
  ecsapi.AutoScalingGroupProvider cp = Some prov ->
  Write fw "tags" (VMap (VString <$> TagsMap fw (ecsapi.Tags cp)))
  = inr stored ->
  exists s,
    ecsTrace s
    = (ecsTrace st ++
       [CallCreateCapacityProvider
          (createRequest fw (ecsData st) name (Some prov))])%list /\
    EcsId (ecsData s)
    = aws.StringValue (ecsapi.CapacityProviderArn created) /\
    ecsAttrs (ecsData s) = ecsAttrs (ecsData st) /\
    (forall conn',
       CreateCapacityProvider conn'
         (createRequest fw (ecsData st) name (Some prov))
       = inr (ecsapi.mkCreateOutput (Some created)) ->
       resourceAwsEcsCapacityProviderCreate fw conn' st
       = resourceAwsEcsCapacityProviderRead fw conn' s) /\
    resourceAwsEcsCapacityProviderCreate fw conn st
    = resourceAwsEcsCapacityProviderRead fw conn s /\
    resourceAwsEcsCapacityProviderRead fw conn s = Panic.
Proof.
  intros HT HN HE HM HC HD Hpre Hcp Hecho HW.
  eexists (mkEcsState
             (mkEcsResourceData
                (aws.StringValue (ecsapi.CapacityProviderArn created))
                (ecsAttrs (ecsData st)))
             (ecsTrace st ++
              [CallCreateCapacityProvider
                 (createRequest fw (ecsData st) name (Some prov))])).
  split; [reflexivity|]. split; [reflexivity|]. split; [reflexivity|].
  split; [|split].
  - intros conn' HC'.
    by rewrite (EcsCreate_called fw conn' st name _ HT HN HE), HC'.
  - by rewrite (EcsCreate_called fw conn st name _ HT HN HE), HC.
  - match goal with
    | |- resourceAwsEcsCapacityProviderRead fw conn ?s = _ =>
        rewrite (EcsRead_described fw conn s _ HD)
    end.
    simpl. rewrite (scanProviders_first _ pre cp post Hpre Hcp).
    unfold mbind, ME_bind, ecsSetPtr, ecsSet. simpl. rewrite HW. simpl.
    rewrite Hecho. unfold lift, flattenAutoScalingGroupProvider.
    by rewrite HM.
Qed.

Lemma EcsCreate_panics_without_managed_scaling_witness :
  exists s,
    ecsTrace s
    = [CallCreateCapacityProvider
         (ecsapi.mkCreateInput
            (Some (ecs.mkAutoScalingGroupProvider
                     (Some "arn:aws:autoscaling:asg/x") None None))
            (Some "cp1") [])] /\
    EcsId (ecsData s) = cp1Arn /\
    resourceAwsEcsCapacityProviderCreate plainFramework (ecsConnOf [cp1Bare])
      ecsConfiguredCp1
    = resourceAwsEcsCapacityProviderRead plainFramework (ecsConnOf [cp1Bare]) s /\
    resourceAwsEcsCapacityProviderRead plainFramework (ecsConnOf [cp1Bare]) s
    = Panic /\
    resourceAwsEcsCapacityProviderCreate plainFramework (ecsConnOf [])
      ecsConfiguredCp1
    = resourceAwsEcsCapacityProviderRead plainFramework (ecsConnOf []) s /\
    resourceAwsEcsCapacityProviderRead plainFramework (ecsConnOf []) s
    = Done (None,
            mkEcsState (mkEcsResourceData EmptyString (ecsAttrs (ecsData s)))
              (ecsTrace s ++
               [CallDescribeCapacityProviders (describeInput cp1Arn)])).
Proof.
  destruct (EcsCreate_panics_without_managed_scaling plainFramework
              (ecsConnOf [cp1Bare]) ecsConfiguredCp1 "cp1"
              (ecs.mkAutoScalingGroupProvider
                 (Some "arn:aws:autoscaling:asg/x") None None)
              cp1Bare cp1Bare [] [] (VMap ∅)
              (or_introl eq_refl) eq_refl eq_refl eq_refl eq_refl eq_refl
              (Forall_nil_2 _) eq_refl eq_refl eq_refl)
    as (s & HT & HI & HA & Hany & HC & HP).
  exists s. split; [exact HT|]. split; [exact HI|].
  split; [exact HC|]. split; [exact HP|].
  split; [exact (Hany (ecsConnOf []) eq_refl)|].
  destruct s as [[id attrs] tr]. simpl in HT, HI. subst id tr. reflexivity.
Defined.

(** X19. How Read fails.  An error of the describe call comes back wrapped
    with the identifier, the resource data untouched.  When the writer
    rejects the tags of the found provider, Read returns that error
    wrapped and stops before it flattens the auto-scaling-group
    provider: it does not panic, whatever that provider holds, and the
    identifier is kept. *)
Theorem EcsRead_failures (fw : Framework) (conn : ECS) (st : EcsState) :
  (forall err,
     DescribeCapacityProviders conn (describeInput (EcsId (ecsData st)))
     = inl err ->
     resourceAwsEcsCapacityProviderRead fw conn st
     = Done (Some (Errorf "error reading ECS Capacity Provider (%s): %s"
                     [ArgString (EcsId (ecsData st)); ArgError err]),
             afterDescribe (EcsId (ecsData st)) st)) /\
  (forall pre cp post err,
     DescribeCapacityProviders conn (describeInput (EcsId (ecsData st)))
     = inr (pre ++ cp :: post)%list ->
     Forall (fun u => ~ arnIs (EcsId (ecsData st)) u) pre ->
     arnIs (EcsId (ecsData st)) cp ->
     Write fw "tags" (VMap (VString <$> TagsMap fw (ecsapi.Tags cp)))
     = inl err ->
     exists st',
       resourceAwsEcsCapacityProviderRead fw conn st
       = Done (Some (Errorf "error setting tags: %s" [ArgError err]), st') /\
       EcsId (ecsData st') = EcsId (ecsData st) /\
       ecsTrace st' = ecsTrace (afterDescribe (EcsId (ecsData st)) st)).
Proof.
  split.
  - intros err HD. unfold resourceAwsEcsCapacityProviderRead.
    unfold mbind at 1 2, ME_bind at 1 2, ecsGetId, ecsCall. by rewrite HD.
  - intros pre cp post err HD Hpre Hcp HW.
    rewrite (EcsRead_described fw conn st _ HD),
      (scanProviders_first _ pre cp post Hpre Hcp).
    unfold mbind, ME_bind, ecsSetPtr, ecsSet. simpl. rewrite HW.
    eexists. by repeat split.
Qed.

Lemma EcsRead_failures_witness :
  resourceAwsEcsCapacityProviderRead plainFramework ecsFailingConn
    ecsTrackedCp1
  = Done (Some (Errorf "error reading ECS Capacity Provider (%s): %s"
                  [ArgString cp1Arn; ArgError (SdkError "timeout")]),
          afterDescribe cp1Arn ecsTrackedCp1) /\
  exists st',
    resourceAwsEcsCapacityProviderRead rejectingFramework
      (ecsConnOf [cp1Bare]) ecsTrackedCp1
    = Done (Some (Errorf "error setting tags: %s"
                    [ArgError (SdkError "bad tags")]), st') /\
    EcsId (ecsData st') = cp1Arn.
Proof.
  split.
  - exact (proj1 (EcsRead_failures plainFramework ecsFailingConn ecsTrackedCp1)
             (SdkError "timeout") eq_refl).
  - destruct (proj2 (EcsRead_failures rejectingFramework (ecsConnOf [cp1Bare])
                       ecsTrackedCp1)
                [] cp1Bare [] (SdkError "bad tags")
                eq_refl (Forall_nil_2 _) eq_refl eq_refl)
      as (st' & HR & HI & _).
    exists st'. by split.
Defined.
